(** * TutorX: the user-progress and entitlement state machine

    A shallow embedding of the profile bookkeeping of the TutorX web
    application: the daily question quota ([checkAndResetDailyLimit],
    [incrementQuestionCount]), the activity recorder ([recordActivity])
    of [App.tsx], the chat gate of [LessonView.tsx]
    ([hasExceededLimit], [handleSendMessage]) and the tier gates of
    [Dashboard.tsx] and [Profile.tsx].

    Numbers are JavaScript numbers that the application only ever uses
    as integers (millisecond timestamps, counters, percentages); they
    are modelled as [Z].  [Date.now()] is an explicit argument [now]. *)

From Stdlib Require Import ZArith Lia.
From stdpp Require Import base decidable option list strings pretty.

Local Open Scope Z_scope.

(** ** Data model ([types.ts]) *)

Inductive DifficultyLevel := BEGINNER | INTERMEDIATE | ADVANCED.

Inductive SubscriptionTier := FREE | PREMIUM | PRO.

#[global] Instance DifficultyLevel_eq_dec : EqDecision DifficultyLevel.
Proof. solve_decision. Defined.

#[global] Instance SubscriptionTier_eq_dec : EqDecision SubscriptionTier.
Proof. solve_decision. Defined.

Module DocumentAnalysis.
Record t := mk { fileName : string; analysis : string; date : Z }.
End DocumentAnalysis.

(** Only the fields of [LessonContent] that the modelled handlers read
    are kept: [quiz], [next_topics] and [exam_metadata] are rendered by
    the views and never reach the profile. *)
Module LessonContent.
Record t := mk { topic : string; lesson : string; summary : list string }.
End LessonContent.

Module QuizScoreRecord.
Record t := mk {
  topic : string;
  score : Z;
  date : Z;
  difficulty : DifficultyLevel }.
End QuizScoreRecord.

Record UserProfile := mkUserProfile {
  email : string;
  displayName : option string;
  learningProgress : Z;
  completedTopics : list string;
  quizScores : list QuizScoreRecord.t;
  tier : SubscriptionTier;
  streak : Z;
  lastActiveDate : option Z;
  weakTopics : list string;
  preferredLevel : string;
  examType : option string;
  dailyQuestionCount : Z;
  lastQuestionResetDate : Z;
  uploadedDocuments : list DocumentAnalysis.t }.

(** ** JavaScript idioms used by the handlers *)

(** [x || d] on a number: [0] is falsy, every other integer is truthy. *)
Definition num_or (x d : Z) : Z := if decide (x = 0) then d else x.

(** [!x] on an optional number: [undefined] and [0] are both falsy. *)
Definition is_falsy (x : option Z) : bool :=
  match x with
  | None => true
  | Some v => bool_decide (v = 0)
  end.

(** [l.includes(x)] on an array of strings. *)
Definition includes (l : list string) (x : string) : bool :=
  bool_decide (x ∈ l).

(** [s.add(x)] on a [Set] kept as its insertion-ordered element list. *)
Definition set_add (s : list string) (x : string) : list string :=
  if includes s x then s else s ++ [x].

(** [[...new Set(l)]]: the elements of [l], first occurrences only, in
    order of first occurrence. *)
Definition new_Set (l : list string) : list string :=
  fold_left set_add l [].

(** ** The calendar day of a timestamp

    [new Date(ms).toDateString()] renders the local calendar date of a
    timestamp.  The time zone belongs to the environment, so the
    handlers below take the rendering as a parameter; [toDateStringUTC]
    is the rendering for an environment whose zone is UTC, following
    ECMA-262 (weekday, month, two-digit day, year of at least four
    digits; [Invalid Date] beyond 8.64e15 ms). *)

Definition msPerDay : Z := 86400000.

Definition weekday_name (d : Z) : string :=
  nth (Z.to_nat d) ["Sun"; "Mon"; "Tue"; "Wed"; "Thu"; "Fri"; "Sat"] "Sun".

Definition month_name (m : Z) : string :=
  nth (Z.to_nat (m - 1))
    ["Jan"; "Feb"; "Mar"; "Apr"; "May"; "Jun";
     "Jul"; "Aug"; "Sep"; "Oct"; "Nov"; "Dec"] "Jan".

(** Day number since 1970-01-01 to (year, month 1..12, day 1..31) in the
    proleptic Gregorian calendar, by 400-year eras starting on 1 March. *)
Definition civil_from_days (z : Z) : Z * Z * Z :=
  let z := z + 719468 in
  let era := z `div` 146097 in
  let doe := z - era * 146097 in
  let yoe := (doe - doe `div` 1460 + doe `div` 36524 - doe `div` 146096) `div` 365 in
  let doy := doe - (365 * yoe + yoe `div` 4 - yoe `div` 100) in
  let mp := (5 * doy + 2) `div` 153 in
  let d := doy - (153 * mp + 2) `div` 5 + 1 in
  let m := if decide (mp < 10) then mp + 3 else mp - 9 in
  let y := yoe + era * 400 + (if decide (m ≤ 2) then 1 else 0) in
  (y, m, d).

Fixpoint zeros (n : nat) : string :=
  match n with
  | O => EmptyString
  | S n' => "0" +:+ zeros n'
  end.

(** [s] padded on the left with zeros to at least [width] characters. *)
Definition zero_pad (width : nat) (s : string) : string :=
  zeros (width - String.length s) +:+ s.

Definition toDateStringUTC (ms : Z) : string :=
  if decide (8640000000000000 < Z.abs ms) then "Invalid Date"
  else
    let day := ms `div` msPerDay in
    let '(y, m, d) := civil_from_days day in
    weekday_name ((day + 4) `mod` 7) +:+ " " +:+ month_name m +:+ " " +:+
    zero_pad 2 (pretty d) +:+ " " +:+
    (if decide (y < 0) then "-" else EmptyString) +:+ zero_pad 4 (pretty (Z.abs y)).

(** ** The daily quota ([App.tsx]) *)

Definition twentyFourHours : Z := 24 * 60 * 60 * 1000.

(** [checkAndResetDailyLimit], with [Date.now()] passed as [now]. *)
Definition checkAndResetDailyLimit (now : Z) (profile : UserProfile) : UserProfile :=
  let lastReset := num_or (lastQuestionResetDate profile) 0 in
  if decide (now - lastReset >= twentyFourHours) then
    {| email := email profile;
       displayName := displayName profile;
       learningProgress := learningProgress profile;
       completedTopics := completedTopics profile;
       quizScores := quizScores profile;
       tier := tier profile;
       streak := streak profile;
       lastActiveDate := lastActiveDate profile;
       weakTopics := weakTopics profile;
       preferredLevel := preferredLevel profile;
       examType := examType profile;
       dailyQuestionCount := 0;
       lastQuestionResetDate := now;
       uploadedDocuments := uploadedDocuments profile |}
  else profile.

(** The [updatedUser] of [incrementQuestionCount]. *)
Definition incrementQuestionCount (user : UserProfile) : UserProfile :=
  {| email := email user;
     displayName := displayName user;
     learningProgress := learningProgress user;
     completedTopics := completedTopics user;
     quizScores := quizScores user;
     tier := tier user;
     streak := streak user;
     lastActiveDate := lastActiveDate user;
     weakTopics := weakTopics user;
     preferredLevel := preferredLevel user;
     examType := examType user;
     dailyQuestionCount := num_or (dailyQuestionCount user) 0 + 1;
     lastQuestionResetDate := lastQuestionResetDate user;
     uploadedDocuments := uploadedDocuments user |}.

(** ** Recording an activity ([App.tsx]) *)

Section RecordActivity.

Variable toDateString : Z → string.

(** [!user.lastActiveDate || new Date(user.lastActiveDate).toDateString()
    !== new Date(now).toDateString()] *)
Definition isNewDay (user : UserProfile) (now : Z) : bool :=
  is_falsy (lastActiveDate user) ||
  match lastActiveDate user with
  | Some last => bool_decide (toDateString last ≠ toDateString now)
  | None => true
  end.

Definition newScoreRecord (activeLesson : LessonContent.t)
    (activeDifficulty : DifficultyLevel) (now score : Z) : QuizScoreRecord.t :=
  {| QuizScoreRecord.topic := LessonContent.topic activeLesson;
     QuizScoreRecord.score := score;
     QuizScoreRecord.date := now;
     QuizScoreRecord.difficulty := activeDifficulty |}.

(** The local [weakTopics] of [recordActivity] after its [if]/[else if]. *)
Definition updateWeakTopics (weak : list string) (topic : string) (score : Z)
    : list string :=
  if bool_decide (score < 70) && negb (includes weak topic) then weak ++ [topic]
  else if bool_decide (score >= 85) then filter (λ t, t ≠ topic) weak
  else weak.

(** The [updatedUser] of [recordActivity]; [user], [activeLesson] and
    [activeDifficulty] are the component state the closure reads. *)
Definition recordActivity (user : UserProfile) (activeLesson : LessonContent.t)
    (activeDifficulty : DifficultyLevel) (now score : Z) (isMasteryOnly : bool)
    : UserProfile :=
  {| email := email user;
     displayName := displayName user;
     learningProgress :=
       Z.min 100 (learningProgress user + (if isMasteryOnly then 2 else 5));
     completedTopics :=
       new_Set (completedTopics user ++ [LessonContent.topic activeLesson]);
     quizScores :=
       quizScores user ++ [newScoreRecord activeLesson activeDifficulty now score];
     tier := tier user;
     streak :=
       if isNewDay user now then num_or (streak user) 0 + 1
       else num_or (streak user) 1;
     lastActiveDate := Some now;
     weakTopics :=
       updateWeakTopics (weakTopics user) (LessonContent.topic activeLesson) score;
     preferredLevel := preferredLevel user;
     examType := examType user;
     dailyQuestionCount := dailyQuestionCount user;
     lastQuestionResetDate := lastQuestionResetDate user;
     uploadedDocuments := uploadedDocuments user |}.

(** One call of [recordActivity] as data, and a run of calls. *)
Record Activity := mkActivity {
  act_lesson : LessonContent.t;
  act_difficulty : DifficultyLevel;
  act_now : Z;
  act_score : Z;
  act_masteryOnly : bool }.

Definition recordOne (user : UserProfile) (a : Activity) : UserProfile :=
  recordActivity user (act_lesson a) (act_difficulty a) (act_now a)
    (act_score a) (act_masteryOnly a).

Definition recordAll (acts : list Activity) (user : UserProfile) : UserProfile :=
  fold_left recordOne acts user.

End RecordActivity.

(** ** Component state of [App] and its handlers

    [user], [activeLesson] and [activeDifficulty] are the [useState]
    cells the handlers close over; [tutorx_user] is the [localStorage]
    entry of that name.  [mockFirestore.saveProgress] is an external
    collaborator and leaves no trace in this state. *)

Module App.

Record State := mkState {
  user : option UserProfile;
  activeLesson : option LessonContent.t;
  activeDifficulty : DifficultyLevel;
  tutorx_user : option UserProfile }.

Definition handleUpdateUser (updatedUser : UserProfile) (st : State) : State :=
  {| user := Some updatedUser;
     activeLesson := activeLesson st;
     activeDifficulty := activeDifficulty st;
     tutorx_user := Some updatedUser |}.

(** [incrementQuestionCount] as passed to [onAskQuestion]:
    [if (!user) return;] then the update. *)
Definition onAskQuestion (st : State) : State :=
  match user st with
  | None => st
  | Some u => handleUpdateUser (incrementQuestionCount u) st
  end.

(** [recordActivity] as passed to [onComplete]:
    [if (!user || !activeLesson) return;] then the update. *)
Definition onComplete (toDateString : Z → string) (now score : Z)
    (isMasteryOnly : bool) (st : State) : State :=
  match user st, activeLesson st with
  | Some u, Some l =>
      handleUpdateUser
        (recordActivity toDateString u l (activeDifficulty st) now score isMasteryOnly) st
  | _, _ => st
  end.

(** [onMarkMastery={(topic) => recordActivity(100, true)}] *)
Definition onMarkMastery (toDateString : Z → string) (now : Z) (st : State) : State :=
  onComplete toDateString now 100 true st.

End App.

(** ** The chat gate and the tab gates ([LessonView.tsx]) *)

Module LessonView.

Inductive Tab := learn | review | ask | exam | voice | next.

#[global] Instance Tab_eq_dec : EqDecision Tab.
Proof. solve_decision. Defined.

Inductive Role := user | model.

Record ChatMessage := mkChatMessage { role : Role; text : string }.

Record State := mkState {
  chatInput : string;
  isTyping : bool;
  streamingMessage : string;
  chatHistory : list ChatMessage }.

(** [String.prototype.trim] strips the white space and line terminators
    of Unicode; which characters those are is the environment's
    knowledge, so the handlers below take [trim] as a parameter.
    [trimASCII] is the function on strings whose only white space is
    that of ASCII (tab, line feed, vertical tab, form feed, carriage
    return, space); it serves to run the handlers on such strings. *)
Fixpoint trimStartASCII (s : string) : string :=
  match s with
  | String a s' => if Ascii.is_space a then trimStartASCII s' else s
  | EmptyString => EmptyString
  end.

Definition trimASCII (s : string) : string :=
  String.rev (trimStartASCII (String.rev (trimStartASCII s))).

(** Truthiness of a string: only the empty string is falsy. *)
Definition truthy (s : string) : bool :=
  match s with
  | EmptyString => false
  | String _ _ => true
  end.

Definition isFree (tier : SubscriptionTier) : bool := bool_decide (tier = FREE).

(** [userProfile?.dailyQuestionCount || 0] *)
Definition questionCount (userProfile : option UserProfile) : Z :=
  match userProfile with
  | Some u => num_or (dailyQuestionCount u) 0
  | None => 0
  end.

Definition hasExceededLimit (tier : SubscriptionTier)
    (userProfile : option UserProfile) : bool :=
  isFree tier && bool_decide (questionCount userProfile >= 100).

(** What [handleSendMessage] does before it awaits the tutor: either the
    early [return], or the state after the three setters together with
    the message for which [onAskQuestion()] and [askTutor] are called. *)
Inductive SendOutcome :=
| Returned
| Asked (st : State) (userMsg : string).

Definition handleSendMessage (trim : string → string) (tier : SubscriptionTier)
    (userProfile : option UserProfile) (st : State) : SendOutcome :=
  if negb (truthy (trim (chatInput st))) || isTyping st
     || truthy (streamingMessage st) || hasExceededLimit tier userProfile
  then Returned
  else
    let userMsg := trim (chatInput st) in
    Asked {| chatInput := EmptyString;
             isTyping := true;
             streamingMessage := streamingMessage st;
             chatHistory := chatHistory st ++ [mkChatMessage user userMsg] |}
          userMsg.

(** The lock badge of [TabButton]. *)
Definition isGated (tier : SubscriptionTier) (id : Tab) : bool :=
  isFree tier && bool_decide (id = exam).

Definition isLimited (tier : SubscriptionTier)
    (userProfile : option UserProfile) (id : Tab) : bool :=
  isFree tier && bool_decide (id = ask) && hasExceededLimit tier userProfile.

(** What the [ask] and [exam] tabs render. *)
Inductive Pane := LockScreen (feature : string) | ChatPane | QuizView.

Definition askPane (tier : SubscriptionTier) (userProfile : option UserProfile) : Pane :=
  if hasExceededLimit tier userProfile then LockScreen "Daily Limit Reached"
  else ChatPane.

Definition examPane (tier : SubscriptionTier) : Pane :=
  if isFree tier then LockScreen "Exam Quizzes Restricted" else QuizView.

End LessonView.

(** [App] renders [<LessonView tier={user.tier} userProfile={user} />];
    a message that is sent calls [onAskQuestion]. *)
Definition sendChatMessage (trim : string → string) (app : App.State)
    (view : LessonView.State) : App.State * LessonView.State :=
  match App.user app with
  | None => (app, view)
  | Some u =>
      match LessonView.handleSendMessage trim (tier u) (Some u) view with
      | LessonView.Returned => (app, view)
      | LessonView.Asked view' _ => (App.onAskQuestion app, view')
      end
  end.

(** ** The difficulty gate ([Dashboard.tsx]) *)

Definition isLevelLocked (user : UserProfile) (lv : DifficultyLevel) : bool :=
  if decide (lv = BEGINNER) then false
  else bool_decide (tier user = FREE).

(** [handleLevelClick]: the selected level afterwards and the tier the
    upgrade dialog is opened for, if any. *)
Definition handleLevelClick (user : UserProfile) (level lv : DifficultyLevel)
    : DifficultyLevel * option SubscriptionTier :=
  if isLevelLocked user lv then (level, Some PREMIUM) else (lv, None).

(** ** The document-analysis gate ([Profile.tsx]) *)

Definition isPremium (user : UserProfile) : bool := bool_decide (tier user ≠ FREE).

Inductive FileSelectOutcome :=
| NoFile
| UpgradePrompt (t : SubscriptionTier)
| Analysed (updatedUser : UserProfile).

(** [handleFileSelect]; [file] is the name of the selected file,
    [analysis] the text [analyzeDocument] resolves to, [now] the
    [Date.now()] of the [onload] callback. *)
Definition handleFileSelect (user : UserProfile) (file : option string)
    (analysis : string) (now : Z) : FileSelectOutcome :=
  match file with
  | None => NoFile
  | Some name =>
      if negb (isPremium user) then UpgradePrompt PREMIUM
      else
        let newDoc := DocumentAnalysis.mk name analysis now in
        Analysed
          {| email := email user;
             displayName := displayName user;
             learningProgress := learningProgress user;
             completedTopics := completedTopics user;
             quizScores := quizScores user;
             tier := tier user;
             streak := streak user;
             lastActiveDate := lastActiveDate user;
             weakTopics := weakTopics user;
             preferredLevel := preferredLevel user;
             examType := examType user;
             dailyQuestionCount := dailyQuestionCount user;
             lastQuestionResetDate := lastQuestionResetDate user;
             uploadedDocuments := newDoc :: uploadedDocuments user |}
  end.

(** ** Lifecycle of a profile *)

(** Modelled from the spec: registration ([mockAuth.register] of
    [firebaseService.ts]) is absent from the sources.  A profile is
    created with all counters zeroed and nothing recorded; the identity
    fields, the tier and the two timestamps are whatever registration
    chose. *)
Definition freshProfile (email : string) (displayName : option string)
    (tier : SubscriptionTier) (preferredLevel : string) (examType : option string)
    (lastActiveDate : option Z) (lastQuestionResetDate : Z) : UserProfile :=
  {| email := email;
     displayName := displayName;
     learningProgress := 0;
     completedTopics := [];
     quizScores := [];
     tier := tier;
     streak := 0;
     lastActiveDate := lastActiveDate;
     weakTopics := [];
     preferredLevel := preferredLevel;
     examType := examType;
     dailyQuestionCount := 0;
     lastQuestionResetDate := lastQuestionResetDate;
     uploadedDocuments := [] |}.

(** Modelled from the spec: [mockAuth.upgradeTier] is absent from the
    sources; the approved upgrade sets [tier] to the target tier. *)
Definition upgradeTier (targetTier : SubscriptionTier) (profile : UserProfile)
    : UserProfile :=
  {| email := email profile;
     displayName := displayName profile;
     learningProgress := learningProgress profile;
     completedTopics := completedTopics profile;
     quizScores := quizScores profile;
     tier := targetTier;
     streak := streak profile;
     lastActiveDate := lastActiveDate profile;
     weakTopics := weakTopics profile;
     preferredLevel := preferredLevel profile;
     examType := examType profile;
     dailyQuestionCount := dailyQuestionCount profile;
     lastQuestionResetDate := lastQuestionResetDate profile;
     uploadedDocuments := uploadedDocuments profile |}.

Definition isFresh (p : UserProfile) : Prop :=
  ∃ e dn t lv ex la lr, p = freshProfile e dn t lv ex la lr.

Section Transitions.

Variable toDateString : Z → string.

(** One transition of the profile: every way the application replaces
    the stored profile by an updated one. *)
Inductive Step : UserProfile → UserProfile → Prop :=
| step_reset now p :
    Step p (checkAndResetDailyLimit now p)
| step_question p :
    Step p (incrementQuestionCount p)
| step_activity p lesson lv now score masteryOnly :
    Step p (recordActivity toDateString p lesson lv now score masteryOnly)
| step_upgrade t p :
    Step p (upgradeTier t p)
| step_document p name analysis now q :
    handleFileSelect p (Some name) analysis now = Analysed q →
    Step p q.

Inductive Reachable : UserProfile → Prop :=
| reach_fresh p : isFresh p → Reachable p
| reach_step p q : Reachable p → Step p q → Reachable q.

End Transitions.

(** ** Vocabulary of the properties *)

(** The scores recorded for [t], oldest first. *)
Definition scoresOf (t : string) (qs : list QuizScoreRecord.t) : list Z :=
  QuizScoreRecord.score <$> filter (λ r, QuizScoreRecord.topic r = t) qs.

(** The scores that a run of [recordActivity] calls passes for [t]. *)
Definition recordedScores (t : string) (acts : list Activity) : list Z :=
  act_score <$> filter (λ a, LessonContent.topic (act_lesson a) = t) acts.

(** The topics that occur in a score history. *)
Definition topicsOf (qs : list QuizScoreRecord.t) : list string :=
  QuizScoreRecord.topic <$> qs.

(** Some score is below 70 and no score after it reaches 85. *)
Definition failedAndNotRecovered (scores : list Z) : Prop :=
  ∃ pre s post, scores = pre ++ s :: post ∧ s < 70 ∧ Forall (λ x, x < 85) post.

(** The most recent score is below 70 (after the most recent score
    there is no later one, so nothing more is asked of later scores). *)
Definition mostRecentBelow70 (scores : list Z) : Prop :=
  ∃ s, last scores = Some s ∧ s < 70.

(** [weakTopics] holds exactly the topics failed and not recovered. *)
Definition weakMatchesScores (p : UserProfile) : Prop :=
  ∀ t, t ∈ weakTopics p ↔ failedAndNotRecovered (scoresOf t (quizScores p)).

(** [completedTopics] covers the topics of [quizScores]. *)
Definition completedCoversScores (p : UserProfile) : Prop :=
  topicsOf (quizScores p) ⊆ completedTopics p.

(** The chat form is ready to send: some text typed, no answer pending. *)
Definition chatReady (trim : string → string) (st : LessonView.State) : Prop :=
  LessonView.truthy (trim (LessonView.chatInput st)) = true ∧
  LessonView.isTyping st = false ∧
  LessonView.streamingMessage st = EmptyString.

(** The lists of a profile hold no topic twice and every weak topic is
    a completed topic. *)
Definition topicListsTidy (p : UserProfile) : Prop :=
  NoDup (weakTopics p) ∧ NoDup (completedTopics p) ∧
  weakTopics p ⊆ completedTopics p.

(** ** Runs of activities and of chat questions *)

(** [l.slice(-n)]: the last [n] elements. *)
Definition slice_last {A} (n : nat) (l : list A) : list A :=
  drop (length l - n) l.

(** The gain in [learningProgress] that a run of activities asks for,
    before the clamp at 100. *)
Definition progressGain (acts : list Activity) : Z :=
  foldr (λ a s, (if act_masteryOnly a then 2 else 5) + s) 0 acts.

(** Questions sent one after the other, each from the chat form as it
    stands when it is submitted. *)
Definition askAll (trim : string → string) (views : list LessonView.State)
    (app : App.State) : App.State :=
  fold_left (λ a v, (sendChatMessage trim a v).1) views app.

(** [{100 - questionCount} questions left today], the badge of the chat
    pane. *)
Definition questionsLeft (userProfile : option UserProfile) : Z :=
  100 - LessonView.questionCount userProfile.

(** ** The dashboard form, its recommendations and analytics
    ([Dashboard.tsx]) *)

Module Dashboard.

Record State := mkState { topic : string; level : DifficultyLevel }.

(** [useState('')] and [useState(DifficultyLevel.BEGINNER)]. *)
Definition initial : State := {| topic := EmptyString; level := BEGINNER |}.

(** What the form reacts to: typing a topic, clicking a level button,
    clicking a recommendation card. *)
Inductive Event :=
| ChangeTopic (value : string)
| ClickLevel (lv : DifficultyLevel)
| ClickRecommendation (rec : string).

(** The state after an event, and the tier [onTriggerUpgrade] is called
    with, if it is called. *)
Definition handle (user : UserProfile) (st : State) (ev : Event)
    : State * option SubscriptionTier :=
  match ev with
  | ChangeTopic value => ({| topic := value; level := level st |}, None)
  | ClickLevel lv =>
      let '(l, upgrade) := handleLevelClick user (level st) lv in
      ({| topic := topic st; level := l |}, upgrade)
  | ClickRecommendation rec => ({| topic := rec; level := level st |}, None)
  end.

Definition handleAll (user : UserProfile) (evs : list Event) (st : State) : State :=
  fold_left (λ s ev, (handle user s ev).1) evs st.

(** [handleSubmit]: the arguments of [onStartLearning], if it is called. *)
Definition handleSubmit (trim : string → string) (loading : bool) (st : State)
    : option (string * DifficultyLevel) :=
  if negb (LessonView.truthy (trim (topic st))) || loading then None
  else Some (topic st, level st).

Definition getLevelLabel (lv : DifficultyLevel) : string :=
  if decide (lv = BEGINNER) then "Easy Mode"
  else if decide (lv = INTERMEDIATE) then "In-Depth"
  else "Exam Mode".

(** [hay.match(/a|b|.../)] for alternatives that are plain words: some
    alternative occurs in [hay]. *)
Fixpoint contains (needle hay : string) : bool :=
  String.prefix needle hay ||
  match hay with
  | EmptyString => false
  | String _ rest => contains needle rest
  end.

Definition matches (alternatives : list string) (hay : string) : bool :=
  existsb (λ a, contains a hay) alternatives.

Definition techPool : list string :=
  ["Fullstack Web Development"; "Neural Networks"; "Blockchain Fundamentals";
   "Cybersecurity Strategy"; "Cloud Architecture"].

Definition sciencePool : list string :=
  ["Quantum Mechanics"; "Molecular Biology"; "Astrophysics";
   "Organic Chemistry"; "Genetic Engineering"].

Definition artsPool : list string :=
  ["Modern Philosophy"; "Renaissance Art"; "Music Theory";
   "Creative Writing"; "History of Cinema"].

Definition defaultPool : list string :=
  ["Psychology of Learning"; "Public Speaking"; "Macroeconomics";
   "Critical Thinking"].

Module Counts.
Record t := mk { Tech : Z; Science : Z; Arts : Z }.
End Counts.

Module DomainCounts.
Record t := mk { Tech : Z; Science : Z; Arts : Z; Other : Z }.
End DomainCounts.

(** The body of the [forEach] of [recommendations]. *)
Definition countTopic (counts : Counts.t) (t : string) : Counts.t :=
  if matches ["ai"; "code"; "data"; "web"; "software"; "crypto"; "tech";
              "engine"; "dev"] t
  then Counts.mk (Counts.Tech counts + 1) (Counts.Science counts) (Counts.Arts counts)
  else if matches ["bio"; "chem"; "phys"; "math"; "science"; "space";
                   "quantum"; "astro"] t
  then Counts.mk (Counts.Tech counts) (Counts.Science counts + 1) (Counts.Arts counts)
  else if matches ["art"; "music"; "paint"; "jazz"; "history"; "philosophy";
                   "literature"; "film"] t
  then Counts.mk (Counts.Tech counts) (Counts.Science counts) (Counts.Arts counts + 1)
  else counts.

(** The [if]/[else if] chain that picks the pool. *)
Definition suggested (counts : Counts.t) : list string :=
  if decide (Counts.Tech counts >= Counts.Science counts
             ∧ Counts.Tech counts >= Counts.Arts counts) then techPool
  else if decide (Counts.Science counts >= Counts.Tech counts
                  ∧ Counts.Science counts >= Counts.Arts counts) then sciencePool
  else if decide (Counts.Arts counts >= Counts.Tech counts
                  ∧ Counts.Arts counts >= Counts.Science counts) then artsPool
  else defaultPool.

(** The body of the [forEach] of [analytics], on the lower-cased topic. *)
Definition countDomain (counts : DomainCounts.t) (lower : string) : DomainCounts.t :=
  let '(DomainCounts.mk te sc ar ot) := counts in
  if matches ["ai"; "code"; "data"; "web"; "software"; "crypto"; "tech";
              "engine"] lower
  then DomainCounts.mk (te + 1) sc ar ot
  else if matches ["bio"; "chem"; "phys"; "math"; "science"; "space";
                   "quantum"] lower
  then DomainCounts.mk te (sc + 1) ar ot
  else if matches ["art"; "music"; "paint"; "jazz"; "history"; "philosophy";
                   "literature"] lower
  then DomainCounts.mk te sc (ar + 1) ot
  else DomainCounts.mk te sc ar (ot + 1).

Section LowerCase.

(** [String.prototype.toLowerCase] follows the Unicode case mapping of
    the environment; the memos below take it as a parameter. *)
Variable toLowerCase : string → string.

Definition lowerTopics (user : UserProfile) : list string :=
  toLowerCase <$> completedTopics user.

Definition recommendationCounts (user : UserProfile) : Counts.t :=
  fold_left countTopic (lowerTopics user) (Counts.mk 0 0 0).

Definition recommendations (user : UserProfile) : list string :=
  take 4
    (filter (λ s, includes (lowerTopics user) (toLowerCase s) = false)
       (suggested (recommendationCounts user))).

Definition domainCounts (user : UserProfile) : DomainCounts.t :=
  fold_left (λ c t, countDomain c (toLowerCase t)) (completedTopics user)
    (DomainCounts.mk 0 0 0 0).

End LowerCase.

Definition recentScores (user : UserProfile) : list QuizScoreRecord.t :=
  slice_last 7 (quizScores user).

End Dashboard.

(** ** The profile page: statistics and recent items ([Profile.tsx]) *)

Module Profile.

(** [Math.round(a / b)] for integers [a] and [b > 0]: the quotient
    rounded to the nearest integer, halves upwards.  The floating-point
    quotient rounds the same way as long as [2 * |a|] is below 2^53. *)
Definition round_div (a b : Z) : Z := (2 * a + b) `div` (2 * b).

(** [arr.sort(compare)]: [Array.prototype.sort] is stable, so for a
    comparator that orders by a key its result is the stable sort,
    computed here by insertion from the right.  [compare x y ≤ 0] keeps
    [x] in front of [y]. *)
Fixpoint insert {A} (compare : A → A → Z) (x : A) (l : list A) : list A :=
  match l with
  | [] => [x]
  | y :: l' =>
      if decide (compare x y ≤ 0) then x :: l else y :: insert compare x l'
  end.

Definition sort {A} (compare : A → A → Z) (l : list A) : list A :=
  foldr (insert compare) [] l.

(** [(a, b) => b.score - a.score] *)
Definition byScoreDescending (a b : QuizScoreRecord.t) : Z :=
  QuizScoreRecord.score b - QuizScoreRecord.score a.

Definition totalScore (scores : list QuizScoreRecord.t) : Z :=
  fold_left (λ acc s, acc + QuizScoreRecord.score s) scores 0.

Definition avgScore (user : UserProfile) : Z :=
  let scores := quizScores user in
  if decide (0 < length scores)%nat
  then round_div (totalScore scores) (Z.of_nat (length scores))
  else 0.

Definition bestTopic (user : UserProfile) : option QuizScoreRecord.t :=
  let scores := quizScores user in
  if decide (0 < length scores)%nat
  then head (sort byScoreDescending scores)
  else None.

(** [user.quizScores.slice(-3).reverse()], the "recent activity" list. *)
Definition recentActivity (user : UserProfile) : list QuizScoreRecord.t :=
  reverse (slice_last 3 (quizScores user)).

(** [user.uploadedDocuments.slice(0, 3)], the documents shown. *)
Definition shownDocuments (user : UserProfile) : list DocumentAnalysis.t :=
  take 3 (uploadedDocuments user).

End Profile.

(** ** The summary export and the streamed answer ([LessonView.tsx]) *)

Module Lesson.

Import Stdlib.Strings.Ascii.

(** [s.replace(/\s+/g, '_')]: every maximal run of white space becomes
    one underscore.  Which characters the class [\s] holds is the
    environment's knowledge (the white space and line terminators of
    Unicode), so the predicate [isWhiteSpace] is a parameter.  [inRun]
    tells that the previous character was white space. *)
Fixpoint replaceSpaces (isWhiteSpace : ascii → bool) (inRun : bool) (s : string)
    : string :=
  match s with
  | EmptyString => EmptyString
  | String c rest =>
      if isWhiteSpace c
      then if inRun then replaceSpaces isWhiteSpace true rest
           else String "_"%char (replaceSpaces isWhiteSpace true rest)
      else String c (replaceSpaces isWhiteSpace false rest)
  end.

(** The file name passed to [doc.save] by [exportSummaryPDF]. *)
Definition summaryFileName (isWhiteSpace : ascii → bool) (content : LessonContent.t)
    : string :=
  "TutorX_Summary_"
  +:+ replaceSpaces isWhiteSpace false (LessonContent.topic content) +:+ ".pdf".

(** The loop of [handleSendMessage] that types the answer out: the
    values passed to [setStreamingMessage], one per character of
    [response]. *)
Fixpoint streamFrom (currentText rest : string) : list string :=
  match rest with
  | EmptyString => []
  | String c rest' =>
      let currentText' := currentText +:+ String c EmptyString in
      currentText' :: streamFrom currentText' rest'
  end.

Definition streamedFrames (response : string) : list string :=
  streamFrom EmptyString response.

(** The chat state once the answer has been typed out. *)
Definition answerReceived (response : string) (st : LessonView.State)
    : LessonView.State :=
  {| LessonView.chatInput := LessonView.chatInput st;
     LessonView.isTyping := false;
     LessonView.streamingMessage := EmptyString;
     LessonView.chatHistory :=
       LessonView.chatHistory st
       ++ [LessonView.mkChatMessage LessonView.model response] |}.

End Lesson.


(** [r] is listed first among the records with the highest score. *)
Definition firstMaximum (b : QuizScoreRecord.t) (scores : list QuizScoreRecord.t)
    : Prop :=
  ∃ pre post, scores = pre ++ b :: post ∧
    Forall (λ r, QuizScoreRecord.score r < QuizScoreRecord.score b) pre ∧
    Forall (λ r, QuizScoreRecord.score r ≤ QuizScoreRecord.score b) post.

(** [(isGated || isLimited)], the condition under which [TabButton]
    draws the lock on a tab. *)
Definition showsLock (tier : SubscriptionTier) (userProfile : option UserProfile)
    (id : LessonView.Tab) : bool :=
  LessonView.isGated tier id || LessonView.isLimited tier userProfile id.

(** [toLowerCase] on strings of ASCII characters. *)
Definition toLowerCaseChar (c : Strings.Ascii.ascii) : Strings.Ascii.ascii :=
  let n := Strings.Ascii.nat_of_ascii c in
  if (65 <=? n)%nat && (n <=? 90)%nat
  then Strings.Ascii.ascii_of_nat (n + 32) else c.

Fixpoint toLowerCaseASCII (s : string) : string :=
  match s with
  | EmptyString => EmptyString
  | String c rest => String (toLowerCaseChar c) (toLowerCaseASCII rest)
  end.

(** ** Sample data for the scenarios *)

Definition calculus : LessonContent.t :=
  LessonContent.mk "Calculus" "Limits, derivatives, integrals." ["Differentiate"].

Definition algebra : LessonContent.t :=
  LessonContent.mk "Algebra" "Groups, rings, fields." ["Factorise"].

(** A free-tier learner on the evening of 14 November 2023 (UTC): active
    the day before, one question short of the daily limit. *)
Definition today : Z := 1700000000000.

Definition yesterday : Z := today - msPerDay.

Definition ada : UserProfile :=
  {| email := "ada@example.com";
     displayName := Some "Ada";
     learningProgress := 97;
     completedTopics := ["Algebra"];
     quizScores := [QuizScoreRecord.mk "Algebra" 90 yesterday BEGINNER];
     tier := FREE;
     streak := 3;
     lastActiveDate := Some yesterday;
     weakTopics := [];
     preferredLevel := "University";
     examType := None;
     dailyQuestionCount := 99;
     lastQuestionResetDate := today - 1000;
     uploadedDocuments := [] |}.

Definition newcomer : UserProfile :=
  freshProfile "bob@example.com" None FREE "High School" None None today.

(** A profile whose registration stamped [lastActiveDate] and left the
    streak at 0. *)
Definition registeredToday : UserProfile :=
  freshProfile "cy@example.com" None FREE "High School" None (Some today) today.

Definition adaPremium : UserProfile := upgradeTier PREMIUM ada.

Definition adaPro : UserProfile := upgradeTier PRO ada.

(** A chat form with a question typed in and no answer pending. *)
Definition typedQuestion : LessonView.State :=
  {| LessonView.chatInput := "  What is a limit? ";
     LessonView.isTyping := false;
     LessonView.streamingMessage := EmptyString;
     LessonView.chatHistory := [] |}.

(** Calculus failed at 60, then retaken at 75 a minute later. *)
Definition failThenMiddling : list Activity :=
  [mkActivity calculus BEGINNER today 60 false;
   mkActivity calculus BEGINNER (today + 60000) 75 false].

(** Four quiz results; Algebra and Geometry tie for the best score. *)
Definition fourScores : list QuizScoreRecord.t :=
  [QuizScoreRecord.mk "Calculus" 60 yesterday BEGINNER;
   QuizScoreRecord.mk "Algebra" 95 yesterday INTERMEDIATE;
   QuizScoreRecord.mk "Geometry" 95 today ADVANCED;
   QuizScoreRecord.mk "Logic" 71 today BEGINNER].

(** A PRO learner with those results and two analysed documents. *)
Definition eve : UserProfile :=
  {| email := "eve@example.com";
     displayName := None;
     learningProgress := 20;
     completedTopics := ["Calculus"; "Algebra"; "Geometry"; "Logic";
                         "Neural Networks"; "Web Design"];
     quizScores := fourScores;
     tier := PRO;
     streak := 2;
     lastActiveDate := Some today;
     weakTopics := ["Calculus"];
     preferredLevel := "University";
     examType := Some "Finals";
     dailyQuestionCount := 250;
     lastQuestionResetDate := today;
     uploadedDocuments :=
       [DocumentAnalysis.mk "notes.pdf" "Summary of the notes." today;
        DocumentAnalysis.mk "paper.pdf" "Summary of the paper." yesterday] |}.

(** Ada signed in with the Calculus lesson open, after a weak result. *)
Definition adaWeakInCalculus : UserProfile :=
  recordActivity toDateStringUTC ada calculus BEGINNER today 40 false.

Definition adaInLesson : App.State :=
  {| App.user := Some adaWeakInCalculus;
     App.activeLesson := Some calculus;
     App.activeDifficulty := BEGINNER;
     App.tutorx_user := Some adaWeakInCalculus |}.

(** Three more activities later on the day of [today]. *)
Definition sameDayRun : list Activity :=
  [mkActivity algebra BEGINNER (today + 60000) 88 false;
   mkActivity calculus BEGINNER (today + 120000) 100 true;
   mkActivity algebra INTERMEDIATE (today + 180000) 30 false].

(** * Properties *)

(** ** The calendar rendering on known dates *)

Example toDateStringUTC_epoch : toDateStringUTC 0 = "Thu Jan 01 1970".
Proof. vm_compute. reflexivity. Qed.

Example toDateStringUTC_before_epoch : toDateStringUTC (-1) = "Wed Dec 31 1969".
Proof. vm_compute. reflexivity. Qed.

Example toDateStringUTC_2023 : toDateStringUTC 1700000000000 = "Tue Nov 14 2023".
Proof. vm_compute. reflexivity. Qed.

Example toDateStringUTC_leap_2000 : toDateStringUTC 951782400000 = "Tue Feb 29 2000".
Proof. vm_compute. reflexivity. Qed.

Example toDateStringUTC_leap_2024 : toDateStringUTC 1709251199999 = "Thu Feb 29 2024".
Proof. vm_compute. reflexivity. Qed.

Example toDateStringUTC_mar_2024 : toDateStringUTC 1709251200000 = "Fri Mar 01 2024".
Proof. vm_compute. reflexivity. Qed.

Example toDateStringUTC_year_5 :
  toDateStringUTC (-62000000000000) = "Tue Apr 19 0005".
Proof. vm_compute. reflexivity. Qed.

Example toDateStringUTC_year_0 :
  toDateStringUTC (-62167219200000) = "Sat Jan 01 0000".
Proof. vm_compute. reflexivity. Qed.

Example toDateStringUTC_year_minus_1 :
  toDateStringUTC (-62198755200000) = "Fri Jan 01 -0001".
Proof. vm_compute. reflexivity. Qed.

(** ** JavaScript idioms *)

Lemma num_or_0 x : num_or x 0 = x.
Proof. unfold num_or. case_decide; congruence. Qed.

Lemma num_or_nonzero x d : x ≠ 0 → num_or x d = x.
Proof. unfold num_or. case_decide; congruence. Qed.

Lemma includes_true l x : includes l x = true ↔ x ∈ l.
Proof. unfold includes. by rewrite bool_decide_eq_true. Qed.

Lemma includes_false l x : includes l x = false ↔ x ∉ l.
Proof. unfold includes. by rewrite bool_decide_eq_false. Qed.

Lemma elem_of_set_add s x y : y ∈ set_add s x ↔ y ∈ s ∨ y = x.
Proof.
  unfold set_add. destruct (includes s x) eqn:E.
  - apply includes_true in E. split; [auto | intros [?| ->]; done].
  - rewrite elem_of_app, list_elem_of_singleton. tauto.
Qed.

Lemma NoDup_set_add s x : NoDup s → NoDup (set_add s x).
Proof.
  intros Hs. unfold set_add. destruct (includes s x) eqn:E; [done |].
  apply includes_false in E. apply NoDup_app.
  split_and!; [done | | apply NoDup_singleton].
  intros y Hy ->%list_elem_of_singleton. done.
Qed.

Lemma elem_of_fold_set_add l acc y :
  y ∈ fold_left set_add l acc ↔ y ∈ acc ∨ y ∈ l.
Proof.
  revert acc. induction l as [| x l IH]; intros acc; simpl.
  - rewrite elem_of_nil. tauto.
  - rewrite IH, elem_of_set_add, elem_of_cons. tauto.
Qed.

Lemma NoDup_fold_set_add l acc : NoDup acc → NoDup (fold_left set_add l acc).
Proof.
  revert acc. induction l as [| x l IH]; intros acc Hacc; simpl; [done |].
  by apply IH, NoDup_set_add.
Qed.

Lemma elem_of_new_Set l y : y ∈ new_Set l ↔ y ∈ l.
Proof. unfold new_Set. rewrite elem_of_fold_set_add, elem_of_nil. tauto. Qed.

Lemma NoDup_new_Set l : NoDup (new_Set l).
Proof. apply NoDup_fold_set_add, NoDup_nil_2. Qed.

(** ** The daily quota *)

Lemma twentyFourHours_ms : twentyFourHours = 86400000.
Proof. reflexivity. Qed.

Lemma checkAndResetDailyLimit_expired now p :
  now - lastQuestionResetDate p >= 86400000 →
  checkAndResetDailyLimit now p =
    {| email := email p; displayName := displayName p;
       learningProgress := learningProgress p;
       completedTopics := completedTopics p; quizScores := quizScores p;
       tier := tier p; streak := streak p; lastActiveDate := lastActiveDate p;
       weakTopics := weakTopics p; preferredLevel := preferredLevel p;
       examType := examType p; dailyQuestionCount := 0;
       lastQuestionResetDate := now;
       uploadedDocuments := uploadedDocuments p |}.
Proof.
  intros H. unfold checkAndResetDailyLimit. rewrite num_or_0, twentyFourHours_ms.
  by rewrite decide_True.
Qed.

Lemma checkAndResetDailyLimit_active now p :
  now - lastQuestionResetDate p < 86400000 →
  checkAndResetDailyLimit now p = p.
Proof.
  intros H. unfold checkAndResetDailyLimit. rewrite num_or_0, twentyFourHours_ms.
  rewrite decide_False; [done | lia].
Qed.

(** C4: [checkAndResetDailyLimit] (the spec's resetDailyQuotaIfExpired)
    returns the profile with [dailyQuestionCount = 0] and
    [lastQuestionResetDate = now], every other field kept, when
    [now - lastQuestionResetDate >= 86_400_000], and returns the profile
    itself otherwise; with [lastQuestionResetDate = now - 86_400_001] the
    result has count 0 and reset date [now]. *)
Theorem reset_daily_quota_if_expired (now : Z) (p : UserProfile) :
  (now - lastQuestionResetDate p >= 86400000 →
     checkAndResetDailyLimit now p =
       mkUserProfile (email p) (displayName p) (learningProgress p)
         (completedTopics p) (quizScores p) (tier p) (streak p)
         (lastActiveDate p) (weakTopics p) (preferredLevel p) (examType p)
         0 now (uploadedDocuments p)) ∧
  (¬ now - lastQuestionResetDate p >= 86400000 →
     checkAndResetDailyLimit now p = p) ∧
  (lastQuestionResetDate p = now - 86400001 →
     dailyQuestionCount (checkAndResetDailyLimit now p) = 0 ∧
     lastQuestionResetDate (checkAndResetDailyLimit now p) = now).
Proof.
  split_and!.
  - apply checkAndResetDailyLimit_expired.
  - intros H. apply checkAndResetDailyLimit_active. lia.
  - intros H. rewrite checkAndResetDailyLimit_expired by lia. done.
Qed.

(** C5: with [now] fixed, resetting twice gives exactly the profile
    that resetting once gives. *)
Theorem reset_daily_quota_idempotent (now : Z) (p : UserProfile) :
  checkAndResetDailyLimit now (checkAndResetDailyLimit now p) =
  checkAndResetDailyLimit now p.
Proof.
  destruct (decide (now - lastQuestionResetDate p >= 86400000)) as [H | H].
  - rewrite (checkAndResetDailyLimit_expired now p H).
    apply checkAndResetDailyLimit_active. simpl. lia.
  - rewrite (checkAndResetDailyLimit_active now p) by lia.
    apply checkAndResetDailyLimit_active. lia.
Qed.

(** ** The question counter and the chat gate *)

Lemma incrementQuestionCount_count user :
  dailyQuestionCount (incrementQuestionCount user) = dailyQuestionCount user + 1.
Proof. simpl. by rewrite num_or_0. Qed.

Lemma isFree_true t : LessonView.isFree t = true ↔ t = FREE.
Proof. unfold LessonView.isFree. by rewrite bool_decide_eq_true. Qed.

Lemma hasExceededLimit_true t user :
  LessonView.hasExceededLimit t (Some user) = true ↔
  t = FREE ∧ dailyQuestionCount user >= 100.
Proof.
  unfold LessonView.hasExceededLimit, LessonView.questionCount.
  by rewrite andb_true_iff, isFree_true, bool_decide_eq_true, num_or_0.
Qed.

Lemma handleSendMessage_ready trim t userProfile st :
  chatReady trim st →
  LessonView.handleSendMessage trim t userProfile st = LessonView.Returned ↔
  LessonView.hasExceededLimit t userProfile = true.
Proof.
  intros (Hin & Hty & Hst). unfold LessonView.handleSendMessage.
  rewrite Hin, Hty, Hst. simpl.
  destruct (LessonView.hasExceededLimit t userProfile); split; done.
Qed.

(** An input that [trim] empties is never sent, whatever the tier. *)
Lemma handleSendMessage_blank trim t userProfile st :
  trim (LessonView.chatInput st) = EmptyString →
  LessonView.handleSendMessage trim t userProfile st = LessonView.Returned.
Proof. intros H. unfold LessonView.handleSendMessage. by rewrite H. Qed.

Lemma sendChatMessage_blocked trim app view user :
  App.user app = Some user →
  LessonView.hasExceededLimit (tier user) (Some user) = true →
  sendChatMessage trim app view = (app, view).
Proof.
  intros Hu Hx. unfold sendChatMessage, LessonView.handleSendMessage.
  rewrite Hu, Hx, !orb_true_r. done.
Qed.

(** C3: [incrementQuestionCount] adds exactly 1 to [dailyQuestionCount]
    whatever its value; the chat gate [hasExceededLimit] holds exactly
    when the tier is FREE and [dailyQuestionCount >= 100], so PREMIUM
    and PRO are never blocked; a ready chat form (its input not blank
    under [trim], whatever white space [trim] strips) is turned away by
    [handleSendMessage] exactly when the gate holds, and being turned
    away is the plain early return that changes neither the profile nor
    the chat; a FREE profile at 99 is not yet blocked, reaches 100 with
    one increment and is blocked from then on. *)
Theorem question_count_and_chat_gate (trim : string → string) :
  (∀ user, dailyQuestionCount (incrementQuestionCount user)
           = dailyQuestionCount user + 1) ∧
  (∀ user, LessonView.hasExceededLimit (tier user) (Some user) = true ↔
           tier user = FREE ∧ dailyQuestionCount user >= 100) ∧
  (∀ user, tier user = PREMIUM ∨ tier user = PRO →
           LessonView.hasExceededLimit (tier user) (Some user) = false) ∧
  (∀ user st, chatReady trim st →
     (LessonView.handleSendMessage trim (tier user) (Some user) st
        = LessonView.Returned ↔
      tier user = FREE ∧ dailyQuestionCount user >= 100)) ∧
  (∀ app view user, App.user app = Some user →
     tier user = FREE → dailyQuestionCount user >= 100 →
     sendChatMessage trim app view = (app, view)) ∧
  (∀ user, tier user = FREE → dailyQuestionCount user = 99 →
     LessonView.hasExceededLimit (tier user) (Some user) = false ∧
     dailyQuestionCount (incrementQuestionCount user) = 100 ∧
     LessonView.hasExceededLimit (tier (incrementQuestionCount user))
       (Some (incrementQuestionCount user)) = true).
Proof.
  split_and!.
  - apply incrementQuestionCount_count.
  - intros user. apply hasExceededLimit_true.
  - intros user Ht. apply not_true_iff_false. rewrite hasExceededLimit_true.
    intros [Hf _]. destruct Ht; congruence.
  - intros user st Hr. rewrite handleSendMessage_ready by done.
    apply hasExceededLimit_true.
  - intros app view user Hu Ht Hc. eapply sendChatMessage_blocked; [done |].
    by apply hasExceededLimit_true.
  - intros user Ht Hc. split_and!.
    + apply not_true_iff_false. rewrite hasExceededLimit_true. lia.
    + rewrite incrementQuestionCount_count. lia.
    + apply hasExceededLimit_true. rewrite incrementQuestionCount_count.
      simpl. split; [done | lia].
Qed.

(** ** The tier gates *)

Lemma isLevelLocked_above_beginner user lv :
  lv ≠ BEGINNER → isLevelLocked user lv = true ↔ tier user = FREE.
Proof.
  intros Hlv. unfold isLevelLocked. rewrite decide_False by done.
  by rewrite bool_decide_eq_true.
Qed.

Lemma examPane_locked t :
  LessonView.examPane t = LessonView.LockScreen "Exam Quizzes Restricted" ↔ t = FREE.
Proof.
  unfold LessonView.examPane. rewrite <- isFree_true.
  destruct (LessonView.isFree t); split; done.
Qed.

Lemma handleFileSelect_locked user name analysis now :
  handleFileSelect user (Some name) analysis now = UpgradePrompt PREMIUM ↔
  tier user = FREE.
Proof.
  unfold handleFileSelect, isPremium.
  destruct (decide (tier user = FREE)) as [H | H].
  - rewrite bool_decide_eq_false_2 by tauto. simpl. tauto.
  - rewrite bool_decide_eq_true_2 by done. simpl. split; [done | tauto].
Qed.

(** C9: the intermediate and advanced difficulty levels, the exam quiz
    and document analysis are each locked exactly when the tier is FREE,
    whatever else the profile holds (the beginner level is never
    locked); hence two profiles of tiers PREMIUM and PRO are gated alike
    on all three. *)
Theorem feature_gates_by_tier :
  (∀ user,
     isLevelLocked user BEGINNER = false ∧
     (isLevelLocked user INTERMEDIATE = true ↔ tier user = FREE) ∧
     (isLevelLocked user ADVANCED = true ↔ tier user = FREE) ∧
     (LessonView.isGated (tier user) LessonView.exam = true ↔ tier user = FREE) ∧
     (LessonView.examPane (tier user)
        = LessonView.LockScreen "Exam Quizzes Restricted" ↔ tier user = FREE) ∧
     (isPremium user = false ↔ tier user = FREE) ∧
     (∀ name analysis now,
        handleFileSelect user (Some name) analysis now = UpgradePrompt PREMIUM ↔
        tier user = FREE)) ∧
  (∀ u v, tier u = PREMIUM → tier v = PRO →
     (∀ lv, isLevelLocked u lv = isLevelLocked v lv) ∧
     (∀ id, LessonView.isGated (tier u) id = LessonView.isGated (tier v) id) ∧
     LessonView.examPane (tier u) = LessonView.examPane (tier v) ∧
     isPremium u = isPremium v ∧
     (∀ name analysis now,
        handleFileSelect u (Some name) analysis now = UpgradePrompt PREMIUM ↔
        handleFileSelect v (Some name) analysis now = UpgradePrompt PREMIUM)).
Proof.
  split.
  - intros user. split_and!.
    + reflexivity.
    + by apply isLevelLocked_above_beginner.
    + by apply isLevelLocked_above_beginner.
    + unfold LessonView.isGated. rewrite bool_decide_eq_true_2 by done.
      rewrite andb_true_r. apply isFree_true.
    + apply examPane_locked.
    + unfold isPremium. rewrite bool_decide_eq_false. split; [| tauto].
      intros H. by destruct (decide (tier user = FREE)).
    + intros. apply handleFileSelect_locked.
  - intros u v Hu Hv. split_and!.
    + intros lv. unfold isLevelLocked. by rewrite Hu, Hv.
    + intros id. by rewrite Hu, Hv.
    + by rewrite Hu, Hv.
    + unfold isPremium. by rewrite Hu, Hv.
    + intros. rewrite !handleFileSelect_locked, Hu, Hv. split; discriminate.
Qed.

(** ** Recording an activity *)

Section RecordActivityFacts.

Variable toDateString : Z → string.

Lemma recordAll_snoc acts a user :
  recordAll toDateString (acts ++ [a]) user
  = recordOne toDateString (recordAll toDateString acts user) a.
Proof. unfold recordAll. by rewrite fold_left_app. Qed.

(** C10: [recordActivity] leaves [email], [tier], [displayName],
    [preferredLevel], [examType], [dailyQuestionCount],
    [lastQuestionResetDate] and [uploadedDocuments] as they were. *)
Theorem recordActivity_frame (user : UserProfile) (activeLesson : LessonContent.t)
    (activeDifficulty : DifficultyLevel) (now score : Z) (isMasteryOnly : bool) :
  let r := recordActivity toDateString user activeLesson activeDifficulty
             now score isMasteryOnly in
  email r = email user ∧
  tier r = tier user ∧
  displayName r = displayName user ∧
  preferredLevel r = preferredLevel user ∧
  examType r = examType user ∧
  dailyQuestionCount r = dailyQuestionCount user ∧
  lastQuestionResetDate r = lastQuestionResetDate user ∧
  uploadedDocuments r = uploadedDocuments user.
Proof. simpl. split_and!; reflexivity. Qed.

Lemma recordActivity_learningProgress user lesson lv now score m :
  learningProgress (recordActivity toDateString user lesson lv now score m) =
  Z.min 100 (learningProgress user + (if m then 2 else 5)).
Proof. reflexivity. Qed.

Lemma recordAll_learningProgress_bounds acts user :
  0 ≤ learningProgress user ≤ 100 →
  0 ≤ learningProgress (recordAll toDateString acts user) ≤ 100.
Proof.
  induction acts as [| a acts IH] using rev_ind; intros Hu; [done |].
  rewrite recordAll_snoc. unfold recordOne.
  rewrite recordActivity_learningProgress. specialize (IH Hu).
  destruct (act_masteryOnly a); lia.
Qed.

(** C7: from a profile with [learningProgress] in [0,100],
    [recordActivity] sets it to [min(100, learningProgress + 2)] for a
    mastery acknowledgement and [min(100, learningProgress + 5)]
    otherwise, and after any run of recorded activities it is still in
    [0,100]. *)
Theorem learningProgress_clamped (user : UserProfile) :
  0 ≤ learningProgress user ≤ 100 →
  (∀ lesson lv now score isMasteryOnly,
     learningProgress
       (recordActivity toDateString user lesson lv now score isMasteryOnly)
     = Z.min 100 (learningProgress user + (if isMasteryOnly then 2 else 5))) ∧
  (∀ acts, 0 ≤ learningProgress (recordAll toDateString acts user) ≤ 100).
Proof.
  intros Hu. split.
  - intros. apply recordActivity_learningProgress.
  - intros acts. by apply recordAll_learningProgress_bounds.
Qed.

End RecordActivityFacts.

(** ** Weak topics *)

Lemma updateWeakTopics_low weak topic score :
  score < 70 → topic ∉ weak → updateWeakTopics weak topic score = weak ++ [topic].
Proof.
  intros Hs Hn. unfold updateWeakTopics.
  rewrite bool_decide_eq_true_2 by done.
  apply includes_false in Hn. by rewrite Hn.
Qed.

Lemma updateWeakTopics_low_present weak topic score :
  score < 70 → topic ∈ weak → updateWeakTopics weak topic score = weak.
Proof.
  intros Hs Hin. unfold updateWeakTopics.
  apply includes_true in Hin. rewrite Hin, andb_false_r.
  rewrite bool_decide_eq_false_2; [done | lia].
Qed.

Lemma updateWeakTopics_high weak topic score :
  score >= 85 → updateWeakTopics weak topic score = filter (λ t, t ≠ topic) weak.
Proof.
  intros Hs. unfold updateWeakTopics.
  rewrite (bool_decide_eq_false_2 (score < 70)) by lia.
  by rewrite bool_decide_eq_true_2.
Qed.

Lemma updateWeakTopics_mid weak topic score :
  70 ≤ score < 85 → updateWeakTopics weak topic score = weak.
Proof.
  intros Hs. unfold updateWeakTopics.
  rewrite (bool_decide_eq_false_2 (score < 70)) by lia.
  rewrite bool_decide_eq_false_2; [done | lia].
Qed.

(** Membership after one update, for every topic at once. *)
Lemma elem_of_updateWeakTopics t weak topic score :
  t ∈ updateWeakTopics weak topic score ↔
  (t = topic ∧ score < 70) ∨ (t ∈ weak ∧ (t ≠ topic ∨ score < 85)).
Proof.
  destruct (decide (score < 70)) as [Hlow | Hlow].
  - destruct (decide (topic ∈ weak)) as [Hin | Hin].
    + rewrite updateWeakTopics_low_present by done.
      split; [intros H; right; split; [done | right; lia] | ].
      intros [[-> _] | [H _]]; done.
    + rewrite updateWeakTopics_low, elem_of_app, list_elem_of_singleton by done.
      split.
      * intros [H | ->]; [right; split; [done | right; lia] | by left].
      * intros [[-> _] | [H _]]; auto.
  - destruct (decide (score >= 85)) as [Hhigh | Hhigh].
    + rewrite updateWeakTopics_high, list_elem_of_filter by done.
      split.
      * intros [Hne Hin]. right. auto.
      * intros [[_ H] | [Hin [Hne | H]]]; [lia | done | lia].
    + rewrite updateWeakTopics_mid by lia.
      split; [intros H; right; split; [done | right; lia] | ].
      intros [[_ H] | [H _]]; [lia | done].
Qed.

Section WeakTopicFacts.

Variable toDateString : Z → string.

(** C2: in every [recordActivity] call, a score below 70 for a topic
    not yet in [weakTopics] appends the topic; a score of 85 or more
    removes the topic (it is absent afterwards and every other topic
    keeps its membership); a score in [70,85) leaves [weakTopics] as it
    was.  Calculus at 60 on an empty list gives [["Calculus"]], and
    Calculus at 90 afterwards gives the empty list. *)
Theorem weakTopics_update (user : UserProfile) (activeLesson : LessonContent.t)
    (lv : DifficultyLevel) (now score : Z) (isMasteryOnly : bool) :
  let topic := LessonContent.topic activeLesson in
  let r := recordActivity toDateString user activeLesson lv now score isMasteryOnly in
  (score < 70 → topic ∉ weakTopics user →
     weakTopics r = weakTopics user ++ [topic]) ∧
  (score >= 85 →
     weakTopics r = filter (λ t, t ≠ topic) (weakTopics user) ∧
     (topic ∉ weakTopics r) ∧
     (∀ t, t ≠ topic → (t ∈ weakTopics r ↔ t ∈ weakTopics user))) ∧
  (70 ≤ score < 85 → weakTopics r = weakTopics user) ∧
  (topic = "Calculus" → weakTopics user = [] → score = 60 →
     weakTopics r = ["Calculus"] ∧
     ∀ lv' now' m',
       weakTopics (recordActivity toDateString r activeLesson lv' now' 90 m') = []).
Proof.
  simpl. split_and!.
  - apply updateWeakTopics_low.
  - intros Hs. rewrite updateWeakTopics_high by done. split_and!.
    + done.
    + rewrite list_elem_of_filter. tauto.
    + intros t Hne. rewrite list_elem_of_filter. tauto.
  - apply updateWeakTopics_mid.
  - intros Ht Hw ->. rewrite Ht, Hw. split; [reflexivity |].
    intros. reflexivity.
Qed.

End WeakTopicFacts.

(** ** Weak topics against the score history *)

Lemma failedAndNotRecovered_nil : ¬ failedAndNotRecovered [].
Proof. intros (pre & s & post & H & _). by destruct pre. Qed.

Lemma failedAndNotRecovered_snoc scores s :
  failedAndNotRecovered (scores ++ [s]) ↔
  s < 70 ∨ (s < 85 ∧ failedAndNotRecovered scores).
Proof.
  split.
  - intros (pre & s0 & post & Heq & Hlow & Hpost).
    destruct post as [| y post' _] using rev_ind.
    + apply app_inj_tail in Heq as [_ ->]. by left.
    + rewrite app_comm_cons, app_assoc in Heq.
      apply app_inj_tail in Heq as [-> ->].
      apply Forall_app in Hpost as [Hpost' Hy]. rewrite Forall_singleton in Hy.
      right. split; [done |]. by exists pre, s0, post'.
  - intros [Hlow | [Hmid (pre & s0 & post & -> & Hlow & Hpost)]].
    + exists scores, s, []. by rewrite Forall_nil.
    + exists pre, s0, (post ++ [s]). split_and!; [| done |].
      * by rewrite <- app_assoc.
      * apply Forall_app. by rewrite Forall_singleton.
Qed.

Lemma scoresOf_snoc t qs r :
  scoresOf t (qs ++ [r]) =
  scoresOf t qs ++ (if decide (QuizScoreRecord.topic r = t)
                    then [QuizScoreRecord.score r] else []).
Proof.
  unfold scoresOf. rewrite filter_app, fmap_app. f_equal.
  case_decide.
  - by rewrite filter_cons_True.
  - by rewrite filter_cons_False.
Qed.

Lemma recordedScores_snoc t acts a :
  recordedScores t (acts ++ [a]) =
  recordedScores t acts ++ (if decide (LessonContent.topic (act_lesson a) = t)
                            then [act_score a] else []).
Proof.
  unfold recordedScores. rewrite filter_app, fmap_app. f_equal.
  case_decide.
  - by rewrite filter_cons_True.
  - by rewrite filter_cons_False.
Qed.

Lemma weakMatchesScores_fresh p : isFresh p → weakMatchesScores p.
Proof.
  intros (e & dn & tr & lv & ex & la & lr & ->) t. simpl.
  rewrite elem_of_nil. split; [done | apply failedAndNotRecovered_nil].
Qed.

Section HistoryFacts.

Variable toDateString : Z → string.

Lemma weakMatchesScores_recordActivity user lesson lv now score m :
  weakMatchesScores user →
  weakMatchesScores (recordActivity toDateString user lesson lv now score m).
Proof.
  intros Hinv t. simpl.
  rewrite elem_of_updateWeakTopics, scoresOf_snoc. simpl.
  case_decide as Ht.
  - rewrite failedAndNotRecovered_snoc, (Hinv t). split.
    + intros [[_ H] | [H [Hne | Hs]]]; [by left | congruence | by right].
    + intros [H | [Hs H]]; [by left | right; split; [done | by right]].
  - rewrite app_nil_r, (Hinv t). split.
    + intros [[-> _] | [H _]]; [congruence | done].
    + intros H. right. split; [done | left; congruence].
Qed.

Lemma Step_weak_and_scores p q :
  Step toDateString p q →
  (∃ lesson lv now score m, q = recordActivity toDateString p lesson lv now score m) ∨
  (weakTopics q = weakTopics p ∧ quizScores q = quizScores p ∧
   completedTopics q = completedTopics p).
Proof.
  intros [now p0 | p0 | p0 lesson lv now score m | t p0 | p0 name an now q0 H].
  - right. unfold checkAndResetDailyLimit. by case_decide.
  - by right.
  - left. by exists lesson, lv, now, score, m.
  - by right.
  - right. unfold handleFileSelect in H.
    destruct (negb (isPremium p0)); [done |]. by injection H as <-.
Qed.

Lemma weakMatchesScores_reachable p :
  Reachable toDateString p → weakMatchesScores p.
Proof.
  induction 1 as [p Hf | p q _ IH Hstep].
  - by apply weakMatchesScores_fresh.
  - apply Step_weak_and_scores in Hstep
      as [(lesson & lv & now & score & m & ->) | (Hw & Hq & _)].
    + by apply weakMatchesScores_recordActivity.
    + intros t. rewrite Hw, Hq. apply IH.
Qed.

Lemma recordAll_reachable acts p :
  Reachable toDateString p → Reachable toDateString (recordAll toDateString acts p).
Proof.
  intros Hp. induction acts as [| a acts IH] using rev_ind; [done |].
  rewrite recordAll_snoc. eapply reach_step; [exact IH | apply step_activity].
Qed.

Lemma scoresOf_recordAll t acts p :
  scoresOf t (quizScores (recordAll toDateString acts p)) =
  scoresOf t (quizScores p) ++ recordedScores t acts.
Proof.
  induction acts as [| a acts IH] using rev_ind.
  - simpl. by rewrite app_nil_r.
  - rewrite recordAll_snoc, recordedScores_snoc. simpl.
    rewrite scoresOf_snoc, IH. simpl. by rewrite app_assoc.
Qed.

(** C1, in the form the code satisfies: after any run of [recordActivity] calls on a fresh
    profile, a topic is in [weakTopics] exactly when some score recorded
    for it is below 70 and no score recorded for it afterwards is 85 or
    more. *)
Theorem weakTopics_iff_failed_and_not_recovered
    (e : string) (dn : option string) (tr : SubscriptionTier) (lvl : string)
    (ex : option string) (la : option Z) (lr : Z)
    (acts : list Activity) (t : string) :
  t ∈ weakTopics (recordAll toDateString acts (freshProfile e dn tr lvl ex la lr)) ↔
  failedAndNotRecovered (recordedScores t acts).
Proof.
  set (p := freshProfile e dn tr lvl ex la lr).
  assert (Hfresh : isFresh p) by (by exists e, dn, tr, lvl, ex, la, lr).
  rewrite (weakMatchesScores_reachable _
             (recordAll_reachable acts p (reach_fresh _ _ Hfresh)) t).
  by rewrite scoresOf_recordAll.
Qed.

End HistoryFacts.

(** The statement with "the most recent score is below 70" in place of
    "some score is below 70" fails: after 60 and then 75 for Calculus the
    most recent score is 75, yet Calculus is still a weak topic. *)
Lemma weakTopics_most_recent_score_refuted :
  ¬ ("Calculus" ∈ weakTopics (recordAll toDateStringUTC failThenMiddling newcomer) ↔
     mostRecentBelow70 (recordedScores "Calculus" failThenMiddling)).
Proof.
  intros [Hweak _].
  assert (Hin : "Calculus" ∈
            weakTopics (recordAll toDateStringUTC failThenMiddling newcomer))
    by (vm_compute; apply list_elem_of_here).
  destruct (Hweak Hin) as (s & Hlast & Hs).
  vm_compute in Hlast. injection Hlast as <-. lia.
Qed.

(** ** Completed topics against the score history *)

Lemma new_Set_NoDup_id_aux l acc :
  NoDup (acc ++ l) → fold_left set_add l acc = acc ++ l.
Proof.
  revert acc. induction l as [| x l IH]; intros acc Hnd; simpl.
  - by rewrite app_nil_r.
  - assert (Hx : x ∉ acc).
    { apply NoDup_app in Hnd as (_ & Hdisj & _). intros Hin.
      apply (Hdisj x Hin). apply list_elem_of_here. }
    unfold set_add at 2. apply includes_false in Hx. rewrite Hx.
    rewrite IH; rewrite <- app_assoc; done.
Qed.

(** On a list without duplicates [[...new Set(l)]] is [l] itself. *)
Lemma new_Set_NoDup_id l : NoDup l → new_Set l = l.
Proof. intros H. unfold new_Set. by rewrite new_Set_NoDup_id_aux. Qed.

Lemma completedCoversScores_fresh p : isFresh p → completedCoversScores p.
Proof.
  intros (e & dn & tr & lv & ex & la & lr & ->) t. simpl.
  by rewrite elem_of_nil.
Qed.

Section CompletedFacts.

Variable toDateString : Z → string.

Lemma elem_of_completedTopics_recordActivity user lesson lv now score m t :
  t ∈ completedTopics (recordActivity toDateString user lesson lv now score m) ↔
  t ∈ completedTopics user ∨ t = LessonContent.topic lesson.
Proof. simpl. by rewrite elem_of_new_Set, elem_of_app, list_elem_of_singleton. Qed.

Lemma completedCoversScores_recordActivity user lesson lv now score m :
  completedCoversScores user →
  completedCoversScores (recordActivity toDateString user lesson lv now score m).
Proof.
  intros Hinv t. rewrite elem_of_completedTopics_recordActivity.
  unfold topicsOf. simpl. rewrite fmap_app, elem_of_app. simpl.
  rewrite list_elem_of_singleton. intros [H | H]; [left | by right].
  by apply Hinv.
Qed.

Lemma completedCoversScores_reachable p :
  Reachable toDateString p → completedCoversScores p.
Proof.
  induction 1 as [p Hf | p q _ IH Hstep].
  - by apply completedCoversScores_fresh.
  - apply Step_weak_and_scores in Hstep
      as [(lesson & lv & now & score & m & ->) | (_ & Hq & Hc)].
    + by apply completedCoversScores_recordActivity.
    + unfold completedCoversScores. by rewrite Hq, Hc.
Qed.

(** C8: in every profile reachable from a fresh one by the transition
    operations, every topic of [quizScores] is in [completedTopics];
    each [recordActivity] call keeps that true, appends exactly one
    record (for the lesson's topic) to [quizScores], and makes
    [completedTopics] the old topics together with the lesson's topic,
    every topic listed once. *)
Theorem completedTopics_cover_quizScores :
  (∀ p, Reachable toDateString p → topicsOf (quizScores p) ⊆ completedTopics p) ∧
  (∀ user lesson lv now score isMasteryOnly,
     let r := recordActivity toDateString user lesson lv now score isMasteryOnly in
     (topicsOf (quizScores user) ⊆ completedTopics user →
      topicsOf (quizScores r) ⊆ completedTopics r) ∧
     quizScores r =
       quizScores user ++
       [QuizScoreRecord.mk (LessonContent.topic lesson) score now lv] ∧
     (∀ t, t ∈ completedTopics r ↔
           t ∈ completedTopics user ∨ t = LessonContent.topic lesson) ∧
     NoDup (completedTopics r)).
Proof.
  split.
  - apply completedCoversScores_reachable.
  - intros user lesson lv now score m r. split_and!.
    + apply completedCoversScores_recordActivity.
    + reflexivity.
    + intros t. apply elem_of_completedTopics_recordActivity.
    + apply NoDup_new_Set.
Qed.

End CompletedFacts.

(** ** The streak *)

Section StreakFacts.

Variable toDateString : Z → string.

Lemma isNewDay_unset user now :
  lastActiveDate user = None ∨ lastActiveDate user = Some 0 →
  isNewDay toDateString user now = true.
Proof. unfold isNewDay. by intros [-> | ->]. Qed.

Lemma isNewDay_set user now last :
  lastActiveDate user = Some last → last ≠ 0 →
  isNewDay toDateString user now = bool_decide (toDateString last ≠ toDateString now).
Proof.
  intros Hl Hne. unfold isNewDay. rewrite Hl. simpl.
  by rewrite bool_decide_eq_false_2.
Qed.

Lemma isNewDay_other_day user now last :
  lastActiveDate user = Some last → toDateString last ≠ toDateString now →
  isNewDay toDateString user now = true.
Proof.
  intros Hl Hne. unfold isNewDay. rewrite Hl.
  rewrite (bool_decide_eq_true_2 (toDateString last ≠ toDateString now)) by done.
  apply orb_true_r.
Qed.

Lemma streak_new_day user lesson lv now score m :
  isNewDay toDateString user now = true →
  streak (recordActivity toDateString user lesson lv now score m) = streak user + 1.
Proof. intros H. simpl. by rewrite H, num_or_0. Qed.

Lemma streak_same_day user lesson lv now score m :
  isNewDay toDateString user now = false →
  streak (recordActivity toDateString user lesson lv now score m)
  = num_or (streak user) 1.
Proof. intros H. simpl. by rewrite H. Qed.

(** C6, in the form the code satisfies: [recordActivity] adds exactly 1 to [streak] when
    [lastActiveDate] is unset or 0, or when its calendar date differs
    from that of [now]; from a fresh profile with [lastActiveDate] unset
    the streak becomes 1.  When [lastActiveDate] is set, not 0, and on
    the calendar date of [now], a streak other than 0 is left as it was
    and a streak of 0 becomes 1.  A profile with streak 3 last active on
    another day goes to 4 on the first call and stays at 4 on a second
    call on that same day. *)
Theorem streak_day_transition (user : UserProfile) (lesson : LessonContent.t)
    (lv : DifficultyLevel) (now score : Z) (isMasteryOnly : bool) :
  let r := recordActivity toDateString user lesson lv now score isMasteryOnly in
  (lastActiveDate user = None ∨ lastActiveDate user = Some 0 →
     streak r = streak user + 1) ∧
  (∀ last, lastActiveDate user = Some last →
     toDateString last ≠ toDateString now → streak r = streak user + 1) ∧
  (isFresh user → lastActiveDate user = None → streak r = 1) ∧
  (∀ last, lastActiveDate user = Some last → last ≠ 0 →
     toDateString last = toDateString now →
     (streak user ≠ 0 → streak r = streak user) ∧
     (streak user = 0 → streak r = 1)) ∧
  (∀ last, streak user = 3 → lastActiveDate user = Some last →
     toDateString last ≠ toDateString now → now ≠ 0 →
     streak r = 4 ∧
     ∀ lesson' lv' now' score' m', toDateString now' = toDateString now →
       streak (recordActivity toDateString r lesson' lv' now' score' m') = 4).
Proof.
  intros r. split_and!.
  - intros H. by apply streak_new_day, isNewDay_unset.
  - intros last Hl Hne. by eapply streak_new_day, isNewDay_other_day.
  - intros (e & dn & tr & l & ex & la & lr & ->) Hl.
    unfold r. rewrite streak_new_day; [done |]. apply isNewDay_unset. by left.
  - intros last Hl Hne Hsame.
    assert (Hday : isNewDay toDateString user now = false).
    { rewrite (isNewDay_set _ _ _ Hl Hne). by apply bool_decide_eq_false_2; intros ?. }
    unfold r. rewrite (streak_same_day _ _ _ _ _ _ Hday). split.
    + intros H. by apply num_or_nonzero.
    + intros ->. reflexivity.
  - intros last Hs Hl Hne Hnow.
    assert (Hr : streak r = 4).
    { unfold r. rewrite (streak_new_day user); [lia |].
      by eapply isNewDay_other_day. }
    split; [done |]. intros lesson' lv' now' score' m' Hsame.
    rewrite streak_same_day.
    + rewrite Hr. reflexivity.
    + rewrite (isNewDay_set r now' now); [| reflexivity | done].
      apply bool_decide_eq_false_2. intros H. by apply H.
Qed.

End StreakFacts.

(** The statement "when the calendar dates are equal the streak is left
    unchanged" fails on a profile whose streak is 0: last active at
    22:13 UTC on 14 November 2023 and recording again a minute later,
    on the same calendar date, the streak goes from 0 to 1. *)
Lemma streak_same_day_unchanged_refuted :
  lastActiveDate registeredToday = Some today ∧
  toDateStringUTC today = toDateStringUTC (today + 60000) ∧
  streak registeredToday = 0 ∧
  streak (recordActivity toDateStringUTC registeredToday calculus BEGINNER
            (today + 60000) 80 false) = 1 ∧
  streak (recordActivity toDateStringUTC registeredToday calculus BEGINNER
            (today + 60000) 80 false) ≠ streak registeredToday.
Proof.
  split_and!; [reflexivity | by vm_compute | reflexivity | by vm_compute |].
  vm_compute. discriminate.
Qed.

(** ** The handlers on the component state *)

Lemma onAskQuestion_signed_in st u :
  App.user st = Some u →
  App.user (App.onAskQuestion st) = Some (incrementQuestionCount u) ∧
  App.tutorx_user (App.onAskQuestion st) = Some (incrementQuestionCount u).
Proof. intros H. unfold App.onAskQuestion. by rewrite H. Qed.

Lemma onAskQuestion_signed_out st :
  App.user st = None → App.onAskQuestion st = st.
Proof. intros H. unfold App.onAskQuestion. by rewrite H. Qed.

Lemma onComplete_in_lesson toDateString now score m st u l :
  App.user st = Some u → App.activeLesson st = Some l →
  App.user (App.onComplete toDateString now score m st)
  = Some (recordActivity toDateString u l (App.activeDifficulty st) now score m).
Proof. intros Hu Hl. unfold App.onComplete. by rewrite Hu, Hl. Qed.

Lemma onComplete_idle toDateString now score m st :
  App.user st = None ∨ App.activeLesson st = None →
  App.onComplete toDateString now score m st = st.
Proof.
  unfold App.onComplete. intros [H | H]; rewrite H; [done |].
  by destruct (App.user st).
Qed.

Lemma sendChatMessage_counts trim app view u :
  App.user app = Some u → chatReady trim view →
  LessonView.hasExceededLimit (tier u) (Some u) = false →
  App.user (sendChatMessage trim app view).1 = Some (incrementQuestionCount u).
Proof.
  intros Hu Hr Hx. unfold sendChatMessage. rewrite Hu.
  destruct (LessonView.handleSendMessage trim (tier u) (Some u) view) eqn:E.
  - apply handleSendMessage_ready in E; [congruence | done].
  - simpl. by apply onAskQuestion_signed_in.
Qed.

(** ** The scenarios on the sample data *)

Lemma reset_daily_quota_if_expired_witness :
  lastQuestionResetDate ada = (today + 86399001) - 86400001 ∧
  dailyQuestionCount (checkAndResetDailyLimit (today + 86399001) ada) = 0 ∧
  lastQuestionResetDate (checkAndResetDailyLimit (today + 86399001) ada)
  = today + 86399001.
Proof.
  assert (H : lastQuestionResetDate ada = (today + 86399001) - 86400001)
    by reflexivity.
  split; [exact H |].
  destruct (reset_daily_quota_if_expired (today + 86399001) ada) as (_ & _ & Hs).
  exact (Hs H).
Defined.

Lemma question_count_and_chat_gate_witness :
  tier ada = FREE ∧ dailyQuestionCount ada = 99 ∧
  chatReady LessonView.trimASCII typedQuestion ∧
  LessonView.hasExceededLimit (tier ada) (Some ada) = false ∧
  dailyQuestionCount (incrementQuestionCount ada) = 100 ∧
  LessonView.hasExceededLimit (tier (incrementQuestionCount ada))
    (Some (incrementQuestionCount ada)) = true ∧
  (LessonView.handleSendMessage LessonView.trimASCII (tier ada) (Some ada)
     typedQuestion = LessonView.Returned ↔
   tier ada = FREE ∧ dailyQuestionCount ada >= 100).
Proof.
  assert (Ht : tier ada = FREE) by reflexivity.
  assert (Hc : dailyQuestionCount ada = 99) by reflexivity.
  assert (Hr : chatReady LessonView.trimASCII typedQuestion)
    by (repeat split; reflexivity).
  split; [exact Ht |]. split; [exact Hc |]. split; [exact Hr |].
  destruct (question_count_and_chat_gate LessonView.trimASCII)
    as (_ & _ & _ & Hsend & _ & Hs).
  destruct (Hs ada Ht Hc) as (H1 & H2 & H3).
  split; [exact H1 |]. split; [exact H2 |]. split; [exact H3 |].
  exact (Hsend ada typedQuestion Hr).
Defined.

Lemma feature_gates_by_tier_witness :
  tier adaPremium = PREMIUM ∧ tier adaPro = PRO ∧
  (∀ lv, isLevelLocked adaPremium lv = isLevelLocked adaPro lv) ∧
  LessonView.examPane (tier adaPremium) = LessonView.examPane (tier adaPro) ∧
  isPremium adaPremium = isPremium adaPro.
Proof.
  assert (Hu : tier adaPremium = PREMIUM) by reflexivity.
  assert (Hv : tier adaPro = PRO) by reflexivity.
  split; [exact Hu |]. split; [exact Hv |].
  destruct feature_gates_by_tier as (_ & Hs).
  destruct (Hs adaPremium adaPro Hu Hv) as (H1 & _ & H3 & H4 & _).
  split; [exact H1 |]. split; [exact H3 | exact H4].
Defined.

Lemma learningProgress_clamped_witness :
  0 ≤ learningProgress ada ≤ 100 ∧
  learningProgress (recordActivity toDateStringUTC ada calculus BEGINNER today 60 false)
  = Z.min 100 (learningProgress ada + 5) ∧
  0 ≤ learningProgress (recordAll toDateStringUTC failThenMiddling ada) ≤ 100.
Proof.
  assert (H : 0 ≤ learningProgress ada ≤ 100) by (simpl; lia).
  split; [exact H |].
  destruct (learningProgress_clamped toDateStringUTC ada H) as (H1 & H2).
  split; [exact (H1 calculus BEGINNER today 60 false) | exact (H2 failThenMiddling)].
Defined.

Lemma weakTopics_update_witness :
  LessonContent.topic calculus = "Calculus" ∧ weakTopics newcomer = [] ∧
  weakTopics (recordActivity toDateStringUTC newcomer calculus BEGINNER today 60 false)
  = ["Calculus"] ∧
  weakTopics
    (recordActivity toDateStringUTC
       (recordActivity toDateStringUTC newcomer calculus BEGINNER today 60 false)
       calculus BEGINNER (today + 60000) 90 false) = [].
Proof.
  assert (Ht : LessonContent.topic calculus = "Calculus") by reflexivity.
  assert (Hw : weakTopics newcomer = []) by reflexivity.
  split; [exact Ht |]. split; [exact Hw |].
  destruct (weakTopics_update toDateStringUTC newcomer calculus BEGINNER today 60 false)
    as (_ & _ & _ & Hs).
  destruct (Hs Ht Hw eq_refl) as (H1 & H2).
  split; [exact H1 | exact (H2 BEGINNER (today + 60000) false)].
Defined.

Lemma completedTopics_cover_quizScores_witness :
  Reachable toDateStringUTC (recordAll toDateStringUTC failThenMiddling newcomer) ∧
  topicsOf (quizScores (recordAll toDateStringUTC failThenMiddling newcomer))
  ⊆ completedTopics (recordAll toDateStringUTC failThenMiddling newcomer).
Proof.
  assert (H : Reachable toDateStringUTC
                (recordAll toDateStringUTC failThenMiddling newcomer)).
  { simpl. eapply reach_step; [| apply step_activity].
    eapply reach_step; [| apply step_activity].
    apply reach_fresh.
    exists "bob@example.com", None, FREE, "High School", None, None, today.
    reflexivity. }
  split; [exact H |].
  destruct (completedTopics_cover_quizScores toDateStringUTC) as (Hs & _).
  exact (Hs _ H).
Defined.

Lemma streak_day_transition_witness :
  streak ada = 3 ∧ lastActiveDate ada = Some yesterday ∧
  toDateStringUTC yesterday ≠ toDateStringUTC today ∧ today ≠ 0 ∧
  toDateStringUTC (today + 60000) = toDateStringUTC today ∧
  streak (recordActivity toDateStringUTC ada calculus BEGINNER today 60 false) = 4 ∧
  streak
    (recordActivity toDateStringUTC
       (recordActivity toDateStringUTC ada calculus BEGINNER today 60 false)
       algebra BEGINNER (today + 60000) 95 false) = 4.
Proof.
  assert (Hs : streak ada = 3) by reflexivity.
  assert (Hl : lastActiveDate ada = Some yesterday) by reflexivity.
  assert (Hne : toDateStringUTC yesterday ≠ toDateStringUTC today)
    by (vm_compute; discriminate).
  assert (Hnow : today ≠ 0) by (unfold today; lia).
  assert (Hsame : toDateStringUTC (today + 60000) = toDateStringUTC today)
    by (vm_compute; reflexivity).
  split; [exact Hs |]. split; [exact Hl |]. split; [exact Hne |].
  split; [exact Hnow |]. split; [exact Hsame |].
  destruct (streak_day_transition toDateStringUTC ada calculus BEGINNER today 60 false)
    as (_ & _ & _ & _ & Hscn).
  destruct (Hscn yesterday Hs Hl Hne Hnow) as (H1 & H2).
  split; [exact H1 | exact (H2 algebra BEGINNER (today + 60000) 95 false Hsame)].
Defined.

(** The typed question goes out trimmed, the input is cleared and the
    question is counted. *)
Example handleSendMessage_typedQuestion :
  LessonView.handleSendMessage LessonView.trimASCII (tier ada) (Some ada)
    typedQuestion =
  LessonView.Asked
    {| LessonView.chatInput := EmptyString;
       LessonView.isTyping := true;
       LessonView.streamingMessage := EmptyString;
       LessonView.chatHistory :=
         [LessonView.mkChatMessage LessonView.user "What is a limit?"] |}
    "What is a limit?".
Proof. vm_compute. reflexivity. Qed.

(** Once the hundredth question is counted the same form is turned away. *)
Example handleSendMessage_at_limit :
  LessonView.handleSendMessage LessonView.trimASCII (tier ada)
    (Some (incrementQuestionCount ada)) typedQuestion = LessonView.Returned.
Proof. vm_compute. reflexivity. Qed.

(** A second Calculus lesson does not list Calculus twice. *)
Example completedTopics_no_duplicate :
  completedTopics (recordAll toDateStringUTC failThenMiddling newcomer)
  = ["Calculus"].
Proof. vm_compute. reflexivity. Qed.

(** * Further properties of the handlers *)

(** ** Runs of activities *)

Lemma progressGain_nonneg acts : 0 ≤ progressGain acts.
Proof.
  induction acts as [| a acts IH]; simpl; [done |].
  destruct (act_masteryOnly a); lia.
Qed.

Lemma progressGain_bounds acts :
  2 * Z.of_nat (length acts) ≤ progressGain acts ≤ 5 * Z.of_nat (length acts).
Proof.
  induction acts as [| a acts IH]; simpl length; simpl progressGain; [lia |].
  destruct (act_masteryOnly a); lia.
Qed.

Section RunFacts.

Variable toDateString : Z → string.

(** X1: along a run of [recordActivity] calls the clamp composes:
    starting at or below 100, [learningProgress] ends at the minimum of
    100 and the start plus 5 per quiz completion and 2 per mastery
    acknowledgement; so it never decreases. *)
Theorem learningProgress_after_run (acts : list Activity) (user : UserProfile) :
  learningProgress user ≤ 100 →
  learningProgress (recordAll toDateString acts user)
  = Z.min 100 (learningProgress user + progressGain acts) ∧
  learningProgress user ≤ learningProgress (recordAll toDateString acts user).
Proof.
  revert user. induction acts as [| a acts IH]; intros user Hu.
  - simpl. lia.
  - change (recordAll toDateString (a :: acts) user)
      with (recordAll toDateString acts (recordOne toDateString user a)).
    pose proof (progressGain_nonneg acts) as Hg.
    assert (Hstep : learningProgress (recordOne toDateString user a)
                    = Z.min 100 (learningProgress user
                                 + (if act_masteryOnly a then 2 else 5)))
      by reflexivity.
    destruct (IH (recordOne toDateString user a)) as [Heq Hle]; [lia |].
    rewrite Heq, Hstep. simpl progressGain.
    destruct (act_masteryOnly a); lia.
Qed.

Lemma recordActivity_streak_bounds user lesson lv now score m :
  0 ≤ streak user →
  streak user ≤ streak (recordActivity toDateString user lesson lv now score m)
  ≤ streak user + 1 ∧
  1 ≤ streak (recordActivity toDateString user lesson lv now score m).
Proof.
  intros Hs. simpl. rewrite num_or_0. unfold num_or.
  destruct (isNewDay toDateString user now); try case_decide; lia.
Qed.

(** X2: [recordActivity] never resets or lowers a streak: from a streak
    of 0 or more the new streak is the old one or the old one plus 1,
    and it is at least 1, however long ago the last activity was. *)
Theorem streak_never_drops (user : UserProfile) (lesson : LessonContent.t)
    (lv : DifficultyLevel) (now score : Z) (isMasteryOnly : bool) :
  0 ≤ streak user →
  let r := recordActivity toDateString user lesson lv now score isMasteryOnly in
  streak user ≤ streak r ≤ streak user + 1 ∧ 1 ≤ streak r.
Proof. intros Hs r. by apply recordActivity_streak_bounds. Qed.

(** X3: on a [completedTopics] list without duplicates [recordActivity]
    keeps every topic in its place, appending the lesson's topic at the
    end when it is new and changing nothing when it is already there. *)
Theorem completedTopics_append_once (user : UserProfile) (lesson : LessonContent.t)
    (lv : DifficultyLevel) (now score : Z) (isMasteryOnly : bool) :
  NoDup (completedTopics user) →
  let r := recordActivity toDateString user lesson lv now score isMasteryOnly in
  (LessonContent.topic lesson ∈ completedTopics user →
     completedTopics r = completedTopics user) ∧
  (LessonContent.topic lesson ∉ completedTopics user →
     completedTopics r = completedTopics user ++ [LessonContent.topic lesson]).
Proof.
  intros Hnd r.
  assert (Hr : completedTopics r
               = set_add (completedTopics user) (LessonContent.topic lesson)).
  { unfold r. simpl. unfold new_Set. rewrite fold_left_app. simpl.
    fold (new_Set (completedTopics user)). by rewrite new_Set_NoDup_id. }
  rewrite Hr. unfold set_add. split; intros H.
  - apply includes_true in H. by rewrite H.
  - apply includes_false in H. by rewrite H.
Qed.

Lemma Step_cases p q :
  Step toDateString p q →
  (∃ now, q = checkAndResetDailyLimit now p) ∨
  q = incrementQuestionCount p ∨
  (∃ lesson lv now score m, q = recordActivity toDateString p lesson lv now score m) ∨
  (∃ t, q = upgradeTier t p) ∨
  (∃ name analysis now,
     handleFileSelect p (Some name) analysis now = Analysed q).
Proof.
  intros [now p0 | p0 | p0 lesson lv now score m | t p0 | p0 name an now q0 H].
  - left. by exists now.
  - right. by left.
  - right. right. left. by exists lesson, lv, now, score, m.
  - right. right. right. left. by exists t.
  - right. right. right. right. by exists name, an, now.
Qed.

Lemma NoDup_updateWeakTopics weak topic score :
  NoDup weak → NoDup (updateWeakTopics weak topic score).
Proof.
  intros Hnd.
  destruct (decide (score < 70)) as [Hlow | Hlow].
  - destruct (decide (topic ∈ weak)) as [Hin | Hin].
    + by rewrite updateWeakTopics_low_present.
    + rewrite updateWeakTopics_low by done.
      apply NoDup_app. split_and!; [done | | apply NoDup_singleton].
      intros y Hy ->%list_elem_of_singleton. done.
  - destruct (decide (score >= 85)) as [Hhigh | Hhigh].
    + rewrite updateWeakTopics_high by done. by apply NoDup_filter.
    + rewrite updateWeakTopics_mid by lia. done.
Qed.

Lemma topicListsTidy_recordActivity user lesson lv now score m :
  topicListsTidy user →
  topicListsTidy (recordActivity toDateString user lesson lv now score m).
Proof.
  intros (Hw & Hc & Hsub). split_and!; simpl.
  - by apply NoDup_updateWeakTopics.
  - apply NoDup_new_Set.
  - intros t. rewrite elem_of_updateWeakTopics, elem_of_new_Set, elem_of_app,
      list_elem_of_singleton.
    intros [[-> _] | [Hin _]]; [by right | left; by apply Hsub].
Qed.

Lemma handleFileSelect_Analysed p name analysis now q :
  handleFileSelect p (Some name) analysis now = Analysed q →
  tier p ≠ FREE ∧
  q = mkUserProfile (email p) (displayName p) (learningProgress p)
        (completedTopics p) (quizScores p) (tier p) (streak p)
        (lastActiveDate p) (weakTopics p) (preferredLevel p) (examType p)
        (dailyQuestionCount p) (lastQuestionResetDate p)
        (DocumentAnalysis.mk name analysis now :: uploadedDocuments p).
Proof.
  unfold handleFileSelect, isPremium. case_bool_decide as Ht; simpl; [| done].
  intros H. by injection H as <-.
Qed.

(** X4: in every profile reachable from a fresh one, [weakTopics] and
    [completedTopics] list no topic twice and every weak topic is also a
    completed topic. *)
Theorem reachable_topic_lists_tidy (p : UserProfile) :
  Reachable toDateString p →
  NoDup (weakTopics p) ∧ NoDup (completedTopics p) ∧
  weakTopics p ⊆ completedTopics p.
Proof.
  change (Reachable toDateString p → topicListsTidy p).
  induction 1 as [p (e & dn & tr & lv & ex & la & lr & ->) | p q _ IH Hstep].
  - split_and!; simpl; [apply NoDup_nil_2 | apply NoDup_nil_2 | done].
  - apply Step_cases in Hstep
      as [[now ->] | [-> | [(l & lv & now & s & m & ->)
                           | [[t ->] | (n & a & now & H)]]]].
    + unfold checkAndResetDailyLimit. by case_decide.
    + done.
    + by apply topicListsTidy_recordActivity.
    + done.
    + apply handleFileSelect_Analysed in H as [_ ->]. done.
Qed.

(** X5: in every profile reachable from a fresh one,
    [learningProgress] is in [0,100] and at most 5 per recorded score,
    [streak] is between 0 and the number of recorded scores, and
    [dailyQuestionCount] is not negative. *)
Theorem reachable_counters_bounded (p : UserProfile) :
  Reachable toDateString p →
  0 ≤ learningProgress p ≤ 100 ∧
  learningProgress p ≤ 5 * Z.of_nat (length (quizScores p)) ∧
  0 ≤ streak p ≤ Z.of_nat (length (quizScores p)) ∧
  0 ≤ dailyQuestionCount p.
Proof.
  induction 1 as [p (e & dn & tr & lv & ex & la & lr & ->) | p q _ IH Hstep].
  - simpl. lia.
  - destruct IH as (Hlp & Hlq & Hst & Hc).
    apply Step_cases in Hstep
      as [[now ->] | [-> | [(l & lv & now & s & m & ->)
                           | [[t ->] | (n & a & now & H)]]]].
    + unfold checkAndResetDailyLimit. case_decide; simpl; lia.
    + simpl. rewrite num_or_0. lia.
    + simpl. rewrite length_app, num_or_0. simpl length. unfold num_or.
      destruct (isNewDay toDateString p now), m; try case_decide; lia.
    + simpl. lia.
    + apply handleFileSelect_Analysed in H as [_ ->]. simpl. lia.
Qed.

End RunFacts.

(** ** The mastery button *)

(** X6: for a signed-in learner with a lesson open, "Acknowledge
    Mastery" stores (in the state and in [localStorage]) a profile in
    which the lesson's topic is no longer weak and every other topic is
    weak as before, with one more score record of 100 for the topic and
    [learningProgress] raised by 2 up to 100. *)
Theorem mastery_clears_weak_topic (toDateString : Z → string) (now : Z)
    (st : App.State) (u : UserProfile) (l : LessonContent.t) :
  App.user st = Some u → App.activeLesson st = Some l →
  ∃ r, App.user (App.onMarkMastery toDateString now st) = Some r ∧
       App.tutorx_user (App.onMarkMastery toDateString now st) = Some r ∧
       (LessonContent.topic l ∉ weakTopics r) ∧
       (∀ t, t ≠ LessonContent.topic l →
             (t ∈ weakTopics r ↔ t ∈ weakTopics u)) ∧
       quizScores r =
         quizScores u ++
         [QuizScoreRecord.mk (LessonContent.topic l) 100 now
            (App.activeDifficulty st)] ∧
       learningProgress r = Z.min 100 (learningProgress u + 2).
Proof.
  intros Hu Hl.
  exists (recordActivity toDateString u l (App.activeDifficulty st) now 100 true).
  unfold App.onMarkMastery, App.onComplete. rewrite Hu, Hl. simpl.
  rewrite updateWeakTopics_high by lia. split_and!; try reflexivity.
  - rewrite list_elem_of_filter. tauto.
  - intros t Hne. rewrite list_elem_of_filter. tauto.
Qed.

(** ** The quota window and the free allowance *)

(** X7: after [checkAndResetDailyLimit] the quota window is never
    expired ([now] is less than 24 hours past [lastQuestionResetDate]),
    and the chat gate holds afterwards exactly when it held before and
    the window had not expired: an expired window always unblocks. *)
Theorem quota_window_after_check (now : Z) (p : UserProfile) :
  let r := checkAndResetDailyLimit now p in
  now - lastQuestionResetDate r < 86400000 ∧
  (LessonView.hasExceededLimit (tier r) (Some r) = true ↔
   now - lastQuestionResetDate p < 86400000 ∧
   LessonView.hasExceededLimit (tier p) (Some p) = true).
Proof.
  destruct (decide (now - lastQuestionResetDate p >= 86400000)) as [H | H]; simpl.
  - rewrite (checkAndResetDailyLimit_expired now p H). simpl. split; [lia |].
    rewrite hasExceededLimit_true. simpl. split; intros [? ?]; lia.
  - rewrite (checkAndResetDailyLimit_active now p) by lia. split; [lia |].
    split; [intros ?; split; [lia | done] | tauto].
Qed.

Lemma sendChatMessage_user trim app view u :
  App.user app = Some u → chatReady trim view →
  App.user (sendChatMessage trim app view).1 =
    Some (if LessonView.hasExceededLimit (tier u) (Some u)
          then u else incrementQuestionCount u).
Proof.
  intros Hu Hr.
  destruct (LessonView.hasExceededLimit (tier u) (Some u)) eqn:E.
  - by rewrite (sendChatMessage_blocked trim app view u Hu E).
  - by apply sendChatMessage_counts.
Qed.

(** X8: questions sent one after the other from a ready chat form
    (input not blank under [trim], nothing pending) are counted up to
    the limit and no further on the free tier: from a
    count [c] a FREE learner ends at [max c (min 100 (c + n))] after [n]
    attempts, a PREMIUM or PRO learner at [c + n]; the tier is
    unchanged.  While the chat pane (not the lock screen) is shown to a
    FREE learner, the "questions left" badge shows at least 1. *)
Theorem free_question_allowance (trim : string → string)
    (views : list LessonView.State) (app : App.State) (u : UserProfile) :
  App.user app = Some u → Forall (chatReady trim) views →
  (∃ u', App.user (askAll trim views app) = Some u' ∧ tier u' = tier u ∧
         dailyQuestionCount u' =
           if decide (tier u = FREE)
           then Z.max (dailyQuestionCount u)
                  (Z.min 100 (dailyQuestionCount u + Z.of_nat (length views)))
           else dailyQuestionCount u + Z.of_nat (length views)) ∧
  (tier u = FREE → LessonView.askPane (tier u) (Some u) = LessonView.ChatPane →
   1 ≤ questionsLeft (Some u)).
Proof.
  intros Hu Hready. split.
  - revert app u Hu. induction Hready as [| v views Hv _ IH]; intros app u Hu.
    + exists u. simpl. split_and!; [done.. |]. case_decide; lia.
    + change (askAll trim (v :: views) app)
        with (askAll trim views (sendChatMessage trim app v).1).
      pose proof (sendChatMessage_user trim app v u Hu Hv) as Hnext.
      destruct (LessonView.hasExceededLimit (tier u) (Some u)) eqn:E.
      * apply hasExceededLimit_true in E as [Ht Hc].
        destruct (IH _ _ Hnext) as (u' & Hu' & Ht' & Hc').
        exists u'. split_and!; [done.. |]. rewrite Hc'.
        rewrite !decide_True by done. cbn [length]. lia.
      * destruct (IH _ _ Hnext) as (u' & Hu' & Ht' & Hc').
        exists u'. split_and!; [done.. |]. rewrite Hc'.
        rewrite incrementQuestionCount_count. simpl tier. cbn [length].
        apply not_true_iff_false in E. rewrite hasExceededLimit_true in E.
        destruct (decide (tier u = FREE)) as [Hf | Hf]; [| lia].
        assert (dailyQuestionCount u < 100)
          by (apply Z.lt_nge; intros ?; apply E; split; [done | lia]).
        lia.
  - intros Ht Hpane. unfold LessonView.askPane in Hpane.
    destruct (LessonView.hasExceededLimit (tier u) (Some u)) eqn:E; [done |].
    apply not_true_iff_false in E. rewrite hasExceededLimit_true in E.
    assert (dailyQuestionCount u < 100)
      by (apply Z.lt_nge; intros ?; apply E; split; [done | lia]).
    unfold questionsLeft, LessonView.questionCount. rewrite num_or_0. lia.
Qed.

(** ** The dashboard form *)

Lemma isLevelLocked_free user lv :
  tier user = FREE → isLevelLocked user lv = false → lv = BEGINNER.
Proof.
  intros Ht. unfold isLevelLocked. case_decide; [done |].
  by rewrite bool_decide_eq_true_2.
Qed.

Lemma handle_level_unlocked user st ev :
  isLevelLocked user (Dashboard.level st) = false →
  isLevelLocked user (Dashboard.level (Dashboard.handle user st ev).1) = false.
Proof.
  intros Hst. destruct ev as [v | lv | rec]; simpl; [done | | done].
  unfold handleLevelClick. by destruct (isLevelLocked user lv) eqn:E.
Qed.

Lemma handleAll_level_unlocked user evs st :
  isLevelLocked user (Dashboard.level st) = false →
  isLevelLocked user (Dashboard.level (Dashboard.handleAll user evs st)) = false.
Proof.
  revert st. induction evs as [| ev evs IH]; intros st Hst; [done |].
  apply IH. by apply handle_level_unlocked.
Qed.

(** X9: whatever is typed and clicked on the dashboard form, starting
    from its initial state, the selected level is one the learner's tier
    unlocks (for a FREE learner it stays BEGINNER); a click on a locked
    level changes nothing and asks for the PREMIUM upgrade; and a
    submission that starts a lesson does so with an unlocked level, a
    topic that is not blank, and only while nothing is loading. *)
Theorem dashboard_level_gate (trim : string → string) (user : UserProfile)
    (evs : list Dashboard.Event) :
  let st := Dashboard.handleAll user evs Dashboard.initial in
  isLevelLocked user (Dashboard.level st) = false ∧
  (tier user = FREE → Dashboard.level st = BEGINNER) ∧
  (∀ lv, isLevelLocked user lv = true →
     Dashboard.handle user st (Dashboard.ClickLevel lv) = (st, Some PREMIUM)) ∧
  (∀ loading t lv, Dashboard.handleSubmit trim loading st = Some (t, lv) →
     isLevelLocked user lv = false ∧ loading = false ∧
     trim t ≠ EmptyString).
Proof.
  intros st.
  assert (Hst : isLevelLocked user (Dashboard.level st) = false)
    by (by apply handleAll_level_unlocked).
  split_and!.
  - done.
  - intros Ht. by eapply isLevelLocked_free.
  - intros lv Hlv. simpl. unfold handleLevelClick. rewrite Hlv. by destruct st.
  - intros loading t lv. unfold Dashboard.handleSubmit.
    destruct (LessonView.truthy (trim (Dashboard.topic st))) eqn:Et,
      loading; simpl; try done.
    intros [= <- <-]. split_and!; [done.. |]. intros Hemp. by rewrite Hemp in Et.
Qed.

(** ** Recommendations and analytics of the dashboard *)

Lemma pools_distinct :
  Dashboard.techPool ≠ Dashboard.sciencePool ∧
  Dashboard.techPool ≠ Dashboard.artsPool ∧
  Dashboard.sciencePool ≠ Dashboard.artsPool ∧
  Dashboard.techPool ≠ Dashboard.defaultPool ∧
  Dashboard.sciencePool ≠ Dashboard.defaultPool ∧
  Dashboard.artsPool ≠ Dashboard.defaultPool.
Proof. split_and!; discriminate. Qed.

(** X10: the pool of recommendations is the pool of the domain with the
    most completed topics, ties going to Tech before Science before
    Arts; the fallback pool of the last [else] is never chosen. *)
Theorem suggested_never_default (counts : Dashboard.Counts.t) :
  let te := Dashboard.Counts.Tech counts in
  let sc := Dashboard.Counts.Science counts in
  let ar := Dashboard.Counts.Arts counts in
  (Dashboard.suggested counts = Dashboard.techPool ↔ te >= sc ∧ te >= ar) ∧
  (Dashboard.suggested counts = Dashboard.sciencePool ↔ sc > te ∧ sc >= ar) ∧
  (Dashboard.suggested counts = Dashboard.artsPool ↔ ar > te ∧ ar > sc) ∧
  Dashboard.suggested counts ≠ Dashboard.defaultPool.
Proof.
  destruct pools_distinct as (Hts & Hta & Hsa & Htd & Hsd & Had).
  intros te sc ar. unfold Dashboard.suggested. fold te sc ar.
  destruct (decide (te >= sc ∧ te >= ar)) as [H1 | H1].
  { split_and!; [tauto | | | done]; split; intros H; try lia; congruence. }
  destruct (decide (sc >= te ∧ sc >= ar)) as [H2 | H2].
  { split_and!; [| | | done]; split; intros H; try lia; try congruence. }
  destruct (decide (ar >= te ∧ ar >= sc)) as [H3 | H3].
  { split_and!; [| | | done]; split; intros H; try lia; try congruence. }
  lia.
Qed.

Section RecommendationFacts.

Variable toLowerCase : string → string.

Lemma suggested_pool counts :
  Dashboard.suggested counts ⊆
  Dashboard.techPool ++ Dashboard.sciencePool ++ Dashboard.artsPool.
Proof.
  intros s Hs. rewrite !elem_of_app.
  unfold Dashboard.suggested in Hs. repeat case_decide; try tauto. lia.
Qed.

Lemma suggested_NoDup counts : NoDup (Dashboard.suggested counts).
Proof.
  unfold Dashboard.suggested.
  repeat case_decide; apply (bool_decide_unpack _); by vm_compute.
Qed.

(** X11: the dashboard recommends at most four topics, no topic twice,
    each taken from the Tech, Science or Arts pool and none whose
    lower-cased name is the lower-cased name of a completed topic; a
    learner with nothing completed is shown the first four Tech topics. *)
Theorem recommendations_sound (user : UserProfile) :
  let recs := Dashboard.recommendations toLowerCase user in
  (length recs ≤ 4)%nat ∧ NoDup recs ∧
  (∀ s, s ∈ recs →
     s ∈ Dashboard.techPool ++ Dashboard.sciencePool ++ Dashboard.artsPool ∧
     toLowerCase s ∉ toLowerCase <$> completedTopics user) ∧
  (completedTopics user = [] →
     recs = ["Fullstack Web Development"; "Neural Networks";
             "Blockchain Fundamentals"; "Cybersecurity Strategy"]).
Proof.
  intros recs. unfold recs, Dashboard.recommendations. split_and!.
  - rewrite length_take. lia.
  - eapply sublist_NoDup; [| apply sublist_take].
    apply NoDup_filter, suggested_NoDup.
  - intros s Hs. apply subseteq_take in Hs.
    apply list_elem_of_filter in Hs as [Hf Hs]. split.
    + by eapply suggested_pool.
    + by apply includes_false.
  - intros Hc. unfold Dashboard.lowerTopics, Dashboard.recommendationCounts,
      Dashboard.lowerTopics. rewrite Hc. reflexivity.
Qed.

Lemma countDomain_total c lower :
  let '(Dashboard.DomainCounts.mk te sc ar ot) := Dashboard.countDomain c lower in
  let '(Dashboard.DomainCounts.mk te0 sc0 ar0 ot0) := c in
  te + sc + ar + ot = te0 + sc0 + ar0 + ot0 + 1 ∧
  te0 ≤ te ∧ sc0 ≤ sc ∧ ar0 ≤ ar ∧ ot0 ≤ ot.
Proof.
  destruct c as [te0 sc0 ar0 ot0]. unfold Dashboard.countDomain.
  repeat match goal with |- context [if ?b then _ else _] => destruct b end; lia.
Qed.

Lemma domainCounts_fold topics c :
  let '(Dashboard.DomainCounts.mk te sc ar ot) :=
    fold_left (λ c t, Dashboard.countDomain c (toLowerCase t)) topics c in
  let '(Dashboard.DomainCounts.mk te0 sc0 ar0 ot0) := c in
  te + sc + ar + ot = te0 + sc0 + ar0 + ot0 + Z.of_nat (length topics) ∧
  te0 ≤ te ∧ sc0 ≤ sc ∧ ar0 ≤ ar ∧ ot0 ≤ ot.
Proof.
  revert c. induction topics as [| t topics IH]; intros c.
  - destruct c. simpl. lia.
  - simpl fold_left. specialize (IH (Dashboard.countDomain c (toLowerCase t))).
    pose proof (countDomain_total c (toLowerCase t)) as Hone.
    destruct (fold_left _ topics _) as [te sc ar ot].
    destruct (Dashboard.countDomain c (toLowerCase t)) as [te1 sc1 ar1 ot1].
    destruct c as [te0 sc0 ar0 ot0]. cbn [length]. lia.
Qed.

(** X12: the analytics put every completed topic in exactly one of the
    four domains, so the four counts are not negative and add up to the
    number of completed topics; and the recent scores are the last seven
    quiz scores, all of them when there are seven or fewer. *)
Theorem analytics_counts_and_recent (user : UserProfile) :
  let d := Dashboard.domainCounts toLowerCase user in
  0 ≤ Dashboard.DomainCounts.Tech d ∧ 0 ≤ Dashboard.DomainCounts.Science d ∧
  0 ≤ Dashboard.DomainCounts.Arts d ∧ 0 ≤ Dashboard.DomainCounts.Other d ∧
  Dashboard.DomainCounts.Tech d + Dashboard.DomainCounts.Science d
  + Dashboard.DomainCounts.Arts d + Dashboard.DomainCounts.Other d
  = Z.of_nat (length (completedTopics user)) ∧
  length (Dashboard.recentScores user) = (length (quizScores user) `min` 7)%nat ∧
  (∃ older, quizScores user = older ++ Dashboard.recentScores user) ∧
  ((length (quizScores user) ≤ 7)%nat →
     Dashboard.recentScores user = quizScores user).
Proof.
  intros d. unfold d, Dashboard.domainCounts.
  pose proof (domainCounts_fold (completedTopics user)
                (Dashboard.DomainCounts.mk 0 0 0 0)) as H.
  destruct (fold_left _ (completedTopics user) _) as [te sc ar ot]. simpl.
  unfold Dashboard.recentScores, slice_last.
  split_and!; try lia.
  - rewrite length_drop. lia.
  - exists (take (length (quizScores user) - 7) (quizScores user)).
    by rewrite take_drop.
  - intros Hle. replace (length (quizScores user) - 7)%nat with 0%nat by lia.
    done.
Qed.

End RecommendationFacts.

(** The recommendations for a learner whose completed topics lean to
    technology, one of them a pool topic in another letter case. *)
Example recommendations_eve :
  Dashboard.recommendations toLowerCaseASCII
    (mkUserProfile "eve@example.com" None 20
       ["NEURAL networks"; "Web Design"; "Organic Chemistry"] [] PRO 2
       (Some today) [] "University" None 0 today [])
  = ["Fullstack Web Development"; "Blockchain Fundamentals";
     "Cybersecurity Strategy"; "Cloud Architecture"].
Proof. vm_compute. reflexivity. Qed.

Example domainCounts_eve :
  Dashboard.domainCounts toLowerCaseASCII eve
  = Dashboard.DomainCounts.mk 1 0 0 5.
Proof. vm_compute. reflexivity. Qed.

(** ** The statistics of the profile page *)

Lemma head_insert {A} (compare : A → A → Z) x l :
  head (Profile.insert compare x l) =
  match head l with
  | None => Some x
  | Some y => if decide (compare x y ≤ 0) then Some x else Some y
  end.
Proof. destruct l as [| y l]; simpl; [done |]. by case_decide. Qed.

Lemma head_sort_cons {A} (compare : A → A → Z) x l :
  head (Profile.sort compare (x :: l)) =
  match head (Profile.sort compare l) with
  | None => Some x
  | Some y => if decide (compare x y ≤ 0) then Some x else Some y
  end.
Proof. apply head_insert. Qed.

Lemma head_sort_None {A} (compare : A → A → Z) l :
  head (Profile.sort compare l) = None → l = [].
Proof.
  destruct l as [| x l]; [done |]. rewrite head_sort_cons.
  destruct (head (Profile.sort compare l)); [by case_decide | done].
Qed.

Lemma head_sort_first_maximum scores b :
  head (Profile.sort Profile.byScoreDescending scores) = Some b →
  firstMaximum b scores.
Proof.
  revert b. induction scores as [| x l IH]; intros b; [done |].
  rewrite head_sort_cons.
  destruct (head (Profile.sort Profile.byScoreDescending l)) as [h |] eqn:E.
  - destruct (IH h eq_refl) as (pre & post & -> & Hpre & Hpost).
    unfold Profile.byScoreDescending. case_decide as Hc; intros [= <-].
    + exists [], (pre ++ h :: post). split_and!; [done | apply Forall_nil_2 |].
      apply Forall_app. split; [| apply Forall_cons; split].
      * eapply Forall_impl; [exact Hpre |]. simpl. intros r Hr. lia.
      * lia.
      * eapply Forall_impl; [exact Hpost |]. simpl. intros r Hr. lia.
    + exists (x :: pre), post. split_and!; [done | | done].
      apply Forall_cons. split; [lia | done].
  - apply head_sort_None in E as ->. intros [= <-].
    exists [], []. split_and!; [done | apply Forall_nil_2 | apply Forall_nil_2].
Qed.

Lemma first_maximum_head_sort scores b :
  firstMaximum b scores →
  head (Profile.sort Profile.byScoreDescending scores) = Some b.
Proof.
  intros (pre & post & -> & Hpre & Hpost).
  induction pre as [| x pre IH].
  - simpl app. rewrite head_sort_cons.
    destruct (head (Profile.sort Profile.byScoreDescending post)) as [h |] eqn:E;
      [| done].
    apply head_sort_first_maximum in E as (p1 & p2 & Heq & _ & _).
    assert (Hh : h ∈ post)
      by (rewrite Heq, elem_of_app; right; apply list_elem_of_here).
    rewrite Forall_forall in Hpost. specialize (Hpost h Hh).
    unfold Profile.byScoreDescending. rewrite decide_True; [done | lia].
  - apply Forall_cons in Hpre as [Hx Hpre].
    change ((x :: pre) ++ b :: post) with (x :: (pre ++ b :: post)).
    rewrite head_sort_cons, (IH Hpre).
    unfold Profile.byScoreDescending. rewrite decide_False; [done | lia].
Qed.

(** X13: the "best topic" of the profile page is the first record, in
    the order the scores were recorded, among those with the highest
    score: every earlier record has a lower score and no later record
    has a higher one; there is none exactly when no score is recorded. *)
Theorem bestTopic_first_maximum (user : UserProfile) :
  (∀ b, Profile.bestTopic user = Some b ↔ firstMaximum b (quizScores user)) ∧
  (Profile.bestTopic user = None ↔ quizScores user = []).
Proof.
  unfold Profile.bestTopic. destruct (quizScores user) as [| x l] eqn:Eq.
  - simpl. split; [| done]. intros b. split; [done |].
    intros (pre & post & H & _). by destruct pre.
  - rewrite decide_True by (simpl; lia). split.
    + intros b. split; [apply head_sort_first_maximum | apply first_maximum_head_sort].
    + split; [| done]. intros H. by apply head_sort_None in H.
Qed.

Lemma totalScore_bounds_from scores lo hi acc :
  Forall (λ r, lo ≤ QuizScoreRecord.score r ≤ hi) scores →
  acc + lo * Z.of_nat (length scores)
  ≤ fold_left (λ a s, a + QuizScoreRecord.score s) scores acc
  ≤ acc + hi * Z.of_nat (length scores).
Proof.
  intros H. revert acc. induction H as [| r l Hr _ IH]; intros acc.
  - simpl. lia.
  - cbn [fold_left length]. specialize (IH (acc + QuizScoreRecord.score r)). lia.
Qed.

(** X14: when some score is recorded, the average shown on the profile
    page lies between the lowest and the highest recorded score (in
    particular it is in [0,100] when the scores are, and equals the
    score when all scores are equal). *)
Theorem avgScore_between (user : UserProfile) (lo hi : Z) :
  quizScores user ≠ [] →
  Forall (λ r, lo ≤ QuizScoreRecord.score r ≤ hi) (quizScores user) →
  lo ≤ Profile.avgScore user ≤ hi.
Proof.
  intros Hne Hall. unfold Profile.avgScore.
  destruct (quizScores user) as [| x l] eqn:Eq; [done |].
  rewrite decide_True by (simpl; lia).
  pose proof (totalScore_bounds_from (x :: l) lo hi 0 Hall) as Hsum.
  fold (Profile.totalScore (x :: l)) in Hsum.
  set (n := Z.of_nat (length (x :: l))) in *.
  assert (Hn : 0 < n) by (unfold n; simpl; lia).
  unfold Profile.round_div. split.
  - apply Z.div_le_lower_bound; lia.
  - apply Z.lt_succ_r, Z.div_lt_upper_bound; lia.
Qed.

Lemma avgScore_no_scores user : quizScores user = [] → Profile.avgScore user = 0.
Proof. intros H. unfold Profile.avgScore. by rewrite H. Qed.

Example stats_eve :
  Profile.avgScore eve = 80 ∧
  Profile.bestTopic eve = Some (QuizScoreRecord.mk "Algebra" 95 yesterday INTERMEDIATE).
Proof. split; vm_compute; reflexivity. Qed.

(** ** What the profile page lists *)

Lemma recentActivity_take user :
  Profile.recentActivity user = take 3 (reverse (quizScores user)).
Proof. unfold Profile.recentActivity, slice_last. by rewrite take_reverse. Qed.

(** X15: the profile page lists newest first and at most three: after
    [recordActivity] the recent activity starts with the record just
    added, followed by the two most recent of before; an upload by a
    PREMIUM or PRO learner changes no field but [uploadedDocuments], and
    the documents shown start with the new one, followed by the first
    two shown before. *)
Theorem profile_lists_newest_first (toDateString : Z → string) (user : UserProfile) :
  (∀ lesson lv now score m,
     Profile.recentActivity (recordActivity toDateString user lesson lv now score m)
     = QuizScoreRecord.mk (LessonContent.topic lesson) score now lv
       :: take 2 (Profile.recentActivity user)) ∧
  (length (Profile.recentActivity user) ≤ 3)%nat ∧
  (∀ name analysis now q,
     handleFileSelect user (Some name) analysis now = Analysed q →
     q = mkUserProfile (email user) (displayName user) (learningProgress user)
           (completedTopics user) (quizScores user) (tier user) (streak user)
           (lastActiveDate user) (weakTopics user) (preferredLevel user)
           (examType user) (dailyQuestionCount user) (lastQuestionResetDate user)
           (DocumentAnalysis.mk name analysis now :: uploadedDocuments user) ∧
     Profile.shownDocuments q
     = DocumentAnalysis.mk name analysis now :: take 2 (Profile.shownDocuments user)) ∧
  (length (Profile.shownDocuments user) ≤ 3)%nat.
Proof.
  split_and!.
  - intros. rewrite !recentActivity_take. simpl quizScores.
    rewrite reverse_snoc, take_take. reflexivity.
  - rewrite recentActivity_take, length_take. lia.
  - intros name analysis now q H.
    apply handleFileSelect_Analysed in H as [_ ->]. split; [done |].
    unfold Profile.shownDocuments. simpl. by rewrite take_take.
  - unfold Profile.shownDocuments. rewrite length_take. lia.
Qed.

(** ** The name of the exported summary *)

Lemma string_app_cons c s1 s2 : String c s1 +:+ s2 = String c (s1 +:+ s2).
Proof. reflexivity. Qed.

Lemma string_app_nil_l s : EmptyString +:+ s = s.
Proof. reflexivity. Qed.

Section FileNameFacts.

Variable isWhiteSpace : Strings.Ascii.ascii → bool.








End FileNameFacts.

(** With the white space of ASCII: two spaces, a tab and a trailing
    space in the topic. *)
Example summaryFileName_spaces :
  Lesson.summaryFileName Ascii.is_space
    (LessonContent.mk "Intro  to	Linear Algebra " EmptyString [])
  = "TutorX_Summary_Intro_to_Linear_Algebra_.pdf".
Proof. vm_compute. reflexivity. Qed.

(** With a class of white space that also holds the no-break space
    (character 160): it is replaced like any other. *)
Example summaryFileName_no_break_space :
  Lesson.summaryFileName
    (λ c, Ascii.is_space c || (Strings.Ascii.nat_of_ascii c =? 160)%nat)
    (LessonContent.mk
       ("A" +:+ String (Strings.Ascii.ascii_of_nat 160) "B")
       EmptyString [])
  = "TutorX_Summary_A_B.pdf".
Proof. vm_compute. reflexivity. Qed.

(** ** One chat exchange *)

(** X17: when [handleSendMessage] sends, the message is the input as
    [trim] returns it and is not empty, nothing was pending and the
    quota gate was open; until the answer arrives a further submit is
    ignored whatever is typed meanwhile; and once the answer is in, the
    history is the old history followed by the question and then the
    answer. *)
Theorem chat_exchange (trim : string → string) (tier : SubscriptionTier)
    (userProfile : option UserProfile) (st st' : LessonView.State)
    (userMsg response : string) :
  LessonView.handleSendMessage trim tier userProfile st
  = LessonView.Asked st' userMsg →
  userMsg = trim (LessonView.chatInput st) ∧
  userMsg ≠ EmptyString ∧
  chatReady trim st ∧
  LessonView.hasExceededLimit tier userProfile = false ∧
  (∀ t up input,
     LessonView.handleSendMessage trim t up
       (LessonView.mkState input (LessonView.isTyping st')
          (LessonView.streamingMessage st') (LessonView.chatHistory st'))
     = LessonView.Returned) ∧
  LessonView.chatHistory (Lesson.answerReceived response st')
  = LessonView.chatHistory st
    ++ [LessonView.mkChatMessage LessonView.user userMsg;
        LessonView.mkChatMessage LessonView.model response].
Proof.
  unfold LessonView.handleSendMessage.
  destruct (LessonView.truthy (trim (LessonView.chatInput st))) eqn:Ein;
    [| done].
  destruct (LessonView.isTyping st) eqn:Ety; [done |].
  destruct (LessonView.streamingMessage st) as [| c s] eqn:Est; [| done].
  destruct (LessonView.hasExceededLimit tier userProfile) eqn:Ex; [done |].
  simpl. intros [= <- <-]. split_and!.
  - reflexivity.
  - intros H. by rewrite H in Ein.
  - by split_and!.
  - reflexivity.
  - intros t up input. unfold LessonView.handleSendMessage. simpl.
    by rewrite orb_true_r.
  - simpl. by rewrite <- app_assoc.
Qed.

(** ** The typed-out answer *)

Lemma string_app_snoc_assoc s c t :
  (s +:+ String c EmptyString) +:+ t = s +:+ String c t.
Proof.
  induction s as [| a s IH]; [done |].
  rewrite !string_app_cons. by rewrite IH.
Qed.

Lemma string_app_nil_r s : s +:+ EmptyString = s.
Proof.
  induction s as [| a s IH]; [done |]. rewrite string_app_cons. by rewrite IH.
Qed.

Lemma substring_0_0 s : Strings.String.substring 0 0 s = EmptyString.
Proof. by destruct s. Qed.

Lemma substring_full s : Strings.String.substring 0 (String.length s) s = s.
Proof. induction s as [| a s IH]; [done |]. simpl. by rewrite IH. Qed.

Lemma streamFrom_length cur rest :
  length (Lesson.streamFrom cur rest) = String.length rest.
Proof.
  revert cur. induction rest as [| c rest IH]; intros cur; [done |].
  simpl. by rewrite IH.
Qed.

Lemma streamFrom_lookup cur rest k :
  (k < String.length rest)%nat →
  Lesson.streamFrom cur rest !! k = Some (cur +:+ Strings.String.substring 0 (S k) rest).
Proof.
  revert cur k. induction rest as [| c rest IH]; intros cur k Hk;
    [simpl in Hk; lia |].
  destruct k as [| k]; simpl.
  - by rewrite substring_0_0.
  - simpl in Hk. rewrite IH by lia. by rewrite string_app_snoc_assoc.
Qed.

(** X18: while the answer is typed out, [setStreamingMessage] is called
    once per character of the answer, the [k]-th call (from 0) with the
    first [k + 1] characters; so the last text shown is the whole
    answer. *)
Theorem streamed_frames_are_prefixes (response : string) :
  length (Lesson.streamedFrames response) = String.length response ∧
  (∀ k, (k < String.length response)%nat →
     Lesson.streamedFrames response !! k
     = Some (Strings.String.substring 0 (S k) response)) ∧
  (response ≠ EmptyString → last (Lesson.streamedFrames response) = Some response).
Proof.
  unfold Lesson.streamedFrames. split_and!.
  - apply streamFrom_length.
  - intros k Hk. by rewrite streamFrom_lookup.
  - intros Hne. rewrite last_lookup, streamFrom_length.
    destruct response as [| c rest]; [done |].
    rewrite streamFrom_lookup by (simpl; lia).
    rewrite string_app_nil_l. f_equal. apply (substring_full (String c rest)).
Qed.

Example streamedFrames_hey :
  Lesson.streamedFrames "Hey" = ["H"; "He"; "Hey"].
Proof. vm_compute. reflexivity. Qed.

(** ** The lock on a tab *)

(** X19: a tab of the lesson view carries the lock exactly when opening
    it shows the lock screen: the quiz tab when the exam pane is the
    lock screen, the tutor tab when the chat pane is the lock screen
    (the daily limit is reached), and no other tab ever. *)
Theorem tab_lock_matches_pane (tier : SubscriptionTier)
    (userProfile : option UserProfile) :
  (showsLock tier userProfile LessonView.exam = true ↔
   LessonView.examPane tier = LessonView.LockScreen "Exam Quizzes Restricted") ∧
  (showsLock tier userProfile LessonView.ask = true ↔
   LessonView.askPane tier userProfile = LessonView.LockScreen "Daily Limit Reached") ∧
  showsLock tier userProfile LessonView.learn = false ∧
  showsLock tier userProfile LessonView.review = false ∧
  showsLock tier userProfile LessonView.voice = false ∧
  showsLock tier userProfile LessonView.next = false.
Proof.
  unfold showsLock, LessonView.isGated, LessonView.isLimited,
    LessonView.examPane, LessonView.askPane, LessonView.hasExceededLimit.
  destruct (LessonView.isFree tier); simpl.
  - destruct (bool_decide (LessonView.questionCount userProfile >= 100));
      simpl; split_and!; try done.
  - split_and!; try done.
Qed.

(** ** One streak increment per calendar day *)

Section StreakRunFacts.

Variable toDateString : Z → string.

Lemma streak_rest_of_day acts p last :
  1 ≤ streak p → lastActiveDate p = Some last → last ≠ 0 →
  Forall (λ b, act_now b ≠ 0 ∧ toDateString (act_now b) = toDateString last) acts →
  streak (recordAll toDateString acts p) = streak p.
Proof.
  intros Hs Hl Hne Hall. revert p last Hs Hl Hne Hall.
  induction acts as [| b acts IH]; intros p last Hs Hl Hne Hall; [done |].
  apply Forall_cons in Hall as [[Hb Hd] Hall].
  change (recordAll toDateString (b :: acts) p)
    with (recordAll toDateString acts (recordOne toDateString p b)).
  assert (Hone : streak (recordOne toDateString p b) = streak p).
  { unfold recordOne. rewrite streak_same_day.
    - apply num_or_nonzero. lia.
    - rewrite (isNewDay_set _ _ _ _ Hl Hne). by apply bool_decide_eq_false_2; intros ?. }
  rewrite (IH (recordOne toDateString p b) (act_now b)); try done.
  - lia.
  - eapply Forall_impl; [exact Hall |]. simpl. intros c [Hc1 Hc2].
    split; [done | congruence].
Qed.

(** X20: the streak grows at most once per calendar day: however many
    activities follow a first one on its calendar date (timestamps not
    0), the streak stays what the first one made it. *)
Theorem streak_once_per_day (user : UserProfile) (a : Activity)
    (acts : list Activity) :
  0 ≤ streak user → act_now a ≠ 0 →
  Forall (λ b, act_now b ≠ 0 ∧
               toDateString (act_now b) = toDateString (act_now a)) acts →
  streak (recordAll toDateString (a :: acts) user)
  = streak (recordOne toDateString user a).
Proof.
  intros Hs Ha Hall.
  change (recordAll toDateString (a :: acts) user)
    with (recordAll toDateString acts (recordOne toDateString user a)).
  apply (streak_rest_of_day acts _ (act_now a)); try done.
  by apply recordActivity_streak_bounds.
Qed.

End StreakRunFacts.

(** ** The further properties on the sample data *)

Lemma learningProgress_after_run_witness :
  learningProgress ada ≤ 100 ∧
  learningProgress (recordAll toDateStringUTC failThenMiddling ada)
  = Z.min 100 (learningProgress ada + progressGain failThenMiddling) ∧
  learningProgress ada
  ≤ learningProgress (recordAll toDateStringUTC failThenMiddling ada).
Proof.
  assert (H : learningProgress ada ≤ 100) by (simpl; lia).
  split; [exact H |].
  exact (learningProgress_after_run toDateStringUTC failThenMiddling ada H).
Defined.

Lemma streak_never_drops_witness :
  0 ≤ streak ada ∧
  streak ada
  ≤ streak (recordActivity toDateStringUTC ada calculus BEGINNER
              (today + 30 * msPerDay) 80 false)
  ≤ streak ada + 1 ∧
  1 ≤ streak (recordActivity toDateStringUTC ada calculus BEGINNER
                (today + 30 * msPerDay) 80 false).
Proof.
  assert (H : 0 ≤ streak ada) by (simpl; lia).
  split; [exact H |].
  exact (streak_never_drops toDateStringUTC ada calculus BEGINNER
           (today + 30 * msPerDay) 80 false H).
Defined.

Lemma completedTopics_append_once_witness :
  NoDup (completedTopics ada) ∧
  (LessonContent.topic calculus ∉ completedTopics ada) ∧
  completedTopics (recordActivity toDateStringUTC ada calculus BEGINNER today 60 false)
  = completedTopics ada ++ [LessonContent.topic calculus].
Proof.
  assert (Hnd : NoDup (completedTopics ada))
    by (apply (bool_decide_unpack _); vm_compute; reflexivity).
  assert (Hnew : LessonContent.topic calculus ∉ completedTopics ada)
    by (apply (bool_decide_unpack _); vm_compute; reflexivity).
  split; [exact Hnd |]. split; [exact Hnew |].
  destruct (completedTopics_append_once toDateStringUTC ada calculus BEGINNER
              today 60 false Hnd) as (_ & H).
  exact (H Hnew).
Defined.

Lemma sample_run_reachable :
  Reachable toDateStringUTC (recordAll toDateStringUTC failThenMiddling newcomer).
Proof.
  simpl. eapply reach_step; [| apply step_activity].
  eapply reach_step; [| apply step_activity].
  apply reach_fresh.
  exists "bob@example.com", None, FREE, "High School", None, None, today.
  reflexivity.
Defined.

Lemma reachable_topic_lists_tidy_witness :
  Reachable toDateStringUTC (recordAll toDateStringUTC failThenMiddling newcomer) ∧
  NoDup (weakTopics (recordAll toDateStringUTC failThenMiddling newcomer)) ∧
  NoDup (completedTopics (recordAll toDateStringUTC failThenMiddling newcomer)) ∧
  weakTopics (recordAll toDateStringUTC failThenMiddling newcomer)
  ⊆ completedTopics (recordAll toDateStringUTC failThenMiddling newcomer).
Proof.
  split; [exact sample_run_reachable |].
  exact (reachable_topic_lists_tidy toDateStringUTC _ sample_run_reachable).
Defined.

Lemma reachable_counters_bounded_witness :
  Reachable toDateStringUTC (recordAll toDateStringUTC failThenMiddling newcomer) ∧
  0 ≤ streak (recordAll toDateStringUTC failThenMiddling newcomer)
  ≤ Z.of_nat (length (quizScores (recordAll toDateStringUTC failThenMiddling newcomer))).
Proof.
  split; [exact sample_run_reachable |].
  destruct (reachable_counters_bounded toDateStringUTC _ sample_run_reachable)
    as (_ & _ & H & _).
  exact H.
Defined.

Lemma mastery_clears_weak_topic_witness :
  App.user adaInLesson = Some adaWeakInCalculus ∧
  App.activeLesson adaInLesson = Some calculus ∧
  "Calculus" ∈ weakTopics adaWeakInCalculus ∧
  ∃ r, App.user (App.onMarkMastery toDateStringUTC (today + 60000) adaInLesson)
       = Some r ∧
       ("Calculus" ∉ weakTopics r) ∧
       learningProgress r = Z.min 100 (learningProgress adaWeakInCalculus + 2).
Proof.
  assert (Hu : App.user adaInLesson = Some adaWeakInCalculus) by reflexivity.
  assert (Hl : App.activeLesson adaInLesson = Some calculus) by reflexivity.
  split; [exact Hu |]. split; [exact Hl |].
  split; [vm_compute; apply list_elem_of_here |].
  destruct (mastery_clears_weak_topic toDateStringUTC (today + 60000)
              adaInLesson adaWeakInCalculus calculus Hu Hl)
    as (r & Hr & _ & Hweak & _ & _ & Hlp).
  exists r. split; [exact Hr |]. split; [exact Hweak | exact Hlp].
Defined.

Lemma free_question_allowance_witness :
  App.user adaInLesson = Some adaWeakInCalculus ∧
  Forall (chatReady LessonView.trimASCII)
    [typedQuestion; typedQuestion; typedQuestion] ∧
  ∃ u', App.user (askAll LessonView.trimASCII
                    [typedQuestion; typedQuestion; typedQuestion] adaInLesson)
        = Some u' ∧
        dailyQuestionCount u' = 100.
Proof.
  assert (Hu : App.user adaInLesson = Some adaWeakInCalculus) by reflexivity.
  assert (Hr : Forall (chatReady LessonView.trimASCII)
                 [typedQuestion; typedQuestion; typedQuestion])
    by (repeat constructor).
  split; [exact Hu |]. split; [exact Hr |].
  destruct (free_question_allowance LessonView.trimASCII _ adaInLesson
              adaWeakInCalculus Hu Hr)
    as ((u' & Hu' & _ & Hc) & _).
  exists u'. split; [exact Hu' |]. exact Hc.
Defined.

Lemma avgScore_between_witness :
  quizScores eve ≠ [] ∧
  Forall (λ r, 60 ≤ QuizScoreRecord.score r ≤ 95) (quizScores eve) ∧
  60 ≤ Profile.avgScore eve ≤ 95.
Proof.
  assert (Hne : quizScores eve ≠ []) by discriminate.
  assert (Hall : Forall (λ r, 60 ≤ QuizScoreRecord.score r ≤ 95) (quizScores eve))
    by (repeat constructor; simpl; lia).
  split; [exact Hne |]. split; [exact Hall |].
  exact (avgScore_between eve 60 95 Hne Hall).
Defined.

Lemma chat_exchange_witness :
  LessonView.handleSendMessage LessonView.trimASCII (tier ada) (Some ada)
    typedQuestion
  = LessonView.Asked
      (LessonView.mkState EmptyString true EmptyString
         [LessonView.mkChatMessage LessonView.user "What is a limit?"])
      "What is a limit?" ∧
  LessonView.chatHistory
    (Lesson.answerReceived "The value a function approaches."
       (LessonView.mkState EmptyString true EmptyString
          [LessonView.mkChatMessage LessonView.user "What is a limit?"]))
  = LessonView.chatHistory typedQuestion
    ++ [LessonView.mkChatMessage LessonView.user "What is a limit?";
        LessonView.mkChatMessage LessonView.model "The value a function approaches."].
Proof.
  assert (H : LessonView.handleSendMessage LessonView.trimASCII (tier ada)
                (Some ada) typedQuestion
              = LessonView.Asked
                  (LessonView.mkState EmptyString true EmptyString
                     [LessonView.mkChatMessage LessonView.user "What is a limit?"])
                  "What is a limit?") by (vm_compute; reflexivity).
  split; [exact H |].
  destruct (chat_exchange LessonView.trimASCII (tier ada) (Some ada)
              typedQuestion _ _
              "The value a function approaches." H) as (_ & _ & _ & _ & _ & Hh).
  exact Hh.
Defined.

Lemma streak_once_per_day_witness :
  0 ≤ streak ada ∧ today ≠ 0 ∧
  Forall (λ b, act_now b ≠ 0 ∧
               toDateStringUTC (act_now b) = toDateStringUTC today) sameDayRun ∧
  streak (recordAll toDateStringUTC
            (mkActivity calculus BEGINNER today 60 false :: sameDayRun) ada)
  = streak (recordOne toDateStringUTC ada (mkActivity calculus BEGINNER today 60 false)).
Proof.
  assert (Hs : 0 ≤ streak ada) by (simpl; lia).
  assert (Hnow : today ≠ 0) by (unfold today; lia).
  assert (Hall : Forall (λ b, act_now b ≠ 0 ∧
                   toDateStringUTC (act_now b) = toDateStringUTC today) sameDayRun).
  { repeat constructor; simpl; try (unfold today; lia); vm_compute; reflexivity. }
  split; [exact Hs |]. split; [exact Hnow |]. split; [exact Hall |].
  exact (streak_once_per_day toDateStringUTC ada
           (mkActivity calculus BEGINNER today 60 false) sameDayRun Hs Hnow Hall).
Defined.

